(** * WhatsApp voice-note transcriber: the webhook pipeline of [main.py]

    A shallow embedding of the Flask application in [src/main.py] and the
    properties of its request handlers.

    Modelling decisions.
    - A Python [str] is a Rocq [string]; every character is read as the code
      point of the same number (0..255).
    - Python exceptions are values of [exn]; a computation that can raise
      returns a [result].  Every raised value is an instance of a subclass of
      [Exception], so [except Exception] catches all of them.
    - The handlers run in a state monad over the files of the working
      directory, the trace of calls made to the outside world and the log.
    - The third-party capabilities (requests, pydub, whisper, the Twilio SDK
      and its request validator, the process environment) are the fields of
      a record [World]; every statement is quantified over it.
    - Opening a file for writing and writing to it always succeed.
    - The builtins behave as in CPython 3.11 (the UnboundLocalError message,
      the limit of 4300 digits of [int] and the place where it is
      checked). *)

From Stdlib Require Import ZArith NArith String Ascii List Bool Lia DecimalString.
From stdpp Require Import gmap strings list fin_maps.

Local Open Scope Z_scope.
Local Open Scope string_scope.

(** ** Exceptions and results *)

Inductive exn_class :=
| IndexError
| ValueError
| UnboundLocalError
| FileNotFoundError
| HTTPError                      (* requests.exceptions.HTTPError *)
| HTTPException (code : Z)       (* werkzeug.exceptions.HTTPException, raised by abort *)
| LibraryError (name : string).  (* any other exception class of a library *)

(** [text e] is [str(e)]. *)
Record exn := Exn { cls : exn_class; text : string }.

Inductive result (A : Type) :=
| Ok (a : A)
| Raise (e : exn).
Arguments Ok {A} a.
Arguments Raise {A} e.

(** ** The Python builtins the handlers use *)

Module Py.

(** [str(n)] for an integer. *)
Definition str_of_Z (z : Z) : string := NilZero.string_of_int (Z.to_int z).

Definition code (c : ascii) : N := N_of_ascii c.

(** [s.split(sep)] for a separator of one character. *)
Fixpoint split (sep : ascii) (s : string) : list string :=
  match s with
  | EmptyString => [EmptyString]
  | String c s' =>
      if Ascii.eqb c sep then EmptyString :: split sep s'
      else match split sep s' with
           | w :: ws => String c w :: ws
           | [] => [String c EmptyString]
           end
  end.

(** [l[i]] for a non-negative index. *)
Definition getitem (l : list string) (i : nat) : result string :=
  match nth_error l i with
  | Some x => Ok x
  | None => Raise (Exn IndexError "list index out of range")
  end.

(** [needle in hay] on strings. *)
Fixpoint contains (needle hay : string) : bool :=
  String.prefix needle hay ||
  match hay with
  | EmptyString => false
  | String _ hay' => contains needle hay'
  end.

(** *** [repr] of a string *)

Definition hex_digit (n : N) : ascii :=
  if (n <? 10)%N then ascii_of_N (48 + n) else ascii_of_N (87 + n).

Definition printable (c : ascii) : bool :=
  let n := code c in
  ((32 <=? n) && (n <=? 126) || (161 <=? n) && negb (n =? 173))%N.

Definition escape_char (quote c : ascii) : string :=
  if Ascii.eqb c quote then String "\" (String c "")
  else if Ascii.eqb c "\" then "\\"
  else if (code c =? 9)%N then "\t"
  else if (code c =? 10)%N then "\n"
  else if (code c =? 13)%N then "\r"
  else if printable c then String c ""
  else String "\" (String "x" (String (hex_digit (code c / 16))
                                 (String (hex_digit (code c mod 16)) ""))).

Fixpoint escape (quote : ascii) (s : string) : string :=
  match s with
  | EmptyString => ""
  | String c s' => escape_char quote c +:+ escape quote s'
  end.

Definition dquote : ascii := ascii_of_N 34.

Definition repr (s : string) : string :=
  let quote : ascii :=
    if contains "'" s && negb (contains (String dquote "") s) then dquote else "'"%char in
  String quote (escape quote s +:+ String quote "").

(** *** [int(s)] for a string, base 10 *)

(** The characters [int] skips at both ends. *)
Definition is_space (c : ascii) : bool :=
  let n := code c in
  ((9 <=? n) && (n <=? 13) || (n =? 32) || (n =? 133) || (n =? 160))%N.

Definition is_digit (c : ascii) : bool :=
  let n := code c in ((48 <=? n) && (n <=? 57))%N.

Definition digit_value (c : ascii) : Z := Z.of_N (code c) - 48.

Fixpoint skip_spaces (s : string) : string :=
  match s with
  | String c s' => if is_space c then skip_spaces s' else s
  | EmptyString => s
  end.

(** Digits with single underscores between them.  [prev] is the character
    read before; the result is the value, the number of digits and the
    rest of the string, or [None] for a syntax error. *)
Fixpoint scan_digits (s : string) (prev : option ascii) (acc : Z) (digits : nat)
  : option (Z * nat * string) :=
  let finish :=
    match prev with
    | None => None
    | Some p => if Ascii.eqb p "_" then None else Some (acc, digits, s)
    end in
  match s with
  | String c s' =>
      if is_digit c then scan_digits s' (Some c) (10 * acc + digit_value c) (S digits)
      else if Ascii.eqb c "_" then
        match prev with
        | None => None
        | Some p => if Ascii.eqb p "_" then None else scan_digits s' (Some c) acc digits
        end
      else finish
  | EmptyString => finish
  end.

(** sys.int_info.default_max_str_digits *)
Definition max_str_digits : nat := 4300.

Definition invalid_literal (s : string) : exn :=
  Exn ValueError
    ("invalid literal for int() with base 10: " +:+ String.substring 0 200 (repr s)).

Definition too_many_digits (digits : nat) : exn :=
  Exn ValueError
    ("Exceeds the limit (" +:+ str_of_Z (Z.of_nat max_str_digits)
     +:+ " digits) for integer string conversion: value has "
     +:+ str_of_Z (Z.of_nat digits)
     +:+ " digits; use sys.set_int_max_str_digits() to increase the limit").

(** The optional sign: whether it is a minus, and what follows it. *)
Definition strip_sign (s : string) : bool * string :=
  match s with
  | String c s' =>
      if Ascii.eqb c "+" then (false, s')
      else if Ascii.eqb c "-" then (true, s')
      else (false, s)
  | EmptyString => (false, s)
  end.

(** The number of digits is checked as soon as the digits are read, before
    what follows them is looked at. *)
Definition int (s : string) : result Z :=
  let '(negative, s2) := strip_sign (skip_spaces s) in
  match scan_digits s2 None 0 0 with
  | None => Raise (invalid_literal s)
  | Some (v, digits, rest) =>
      if (max_str_digits <? digits)%nat then Raise (too_many_digits digits)
      else
        match skip_spaces rest with
        | EmptyString => Ok (if negative then - v else v)
        | String _ _ => Raise (invalid_literal s)
        end
  end.

(** An f-string field [{x}] where [x] is a string or [None]. *)
Definition format_opt (o : option string) : string :=
  match o with
  | Some s => s
  | None => "None"
  end.

End Py.

(** ** Requests and responses *)

(** A werkzeug MultiDict is an ordered list of (key, value) pairs. *)
Definition multidict := list (string * string).

Record request := Request {
  url : string;            (* request.url *)
  headers : multidict;     (* request.headers *)
  args : multidict;        (* request.args, the query string *)
  form : multidict         (* request.form, the body of the POST *)
}.

(** A view function returns [body, status]. *)
Definition response := (string * Z)%type.

(** [d.get(k)]: the first value stored under [k]. *)
Fixpoint multidict_get (k : string) (d : multidict) : option string :=
  match d with
  | [] => None
  | (k', v) :: d' => if String.eqb k' k then Some v else multidict_get k d'
  end.

(** [request.values.get(k)]: [request.values] combines [args] and [form],
    in this order. *)
Definition values_get (req : request) (k : string) : option string :=
  match multidict_get k (args req) with
  | Some v => Some v
  | None => multidict_get k (form req)
  end.

(** [request.values.get(k, '')] *)
Definition values_get_str (req : request) (k : string) : string :=
  default "" (values_get req k).

Definition lower_char (c : ascii) : ascii :=
  let n := Py.code c in
  if ((65 <=? n) && (n <=? 90))%N then ascii_of_N (n + 32) else c.

Fixpoint lower (s : string) : string :=
  match s with
  | EmptyString => EmptyString
  | String c s' => String (lower_char c) (lower s')
  end.

(** [request.headers.get(name)]: header names compare without case. *)
Fixpoint headers_lookup (name : string) (h : multidict) : option string :=
  match h with
  | [] => None
  | (k, v) :: h' =>
      if String.eqb (lower k) (lower name) then Some v else headers_lookup name h'
  end.

(** [d.to_dict()] and [dict(d)] for a MultiDict: the first value of each key. *)
Definition to_dict (d : multidict) : gmap string string := list_to_map d.

(** [dict(request.headers)]: built from the pairs, the last value of each
    name stays. *)
Definition dict_of_items (d : multidict) : gmap string string := list_to_map (rev d).

(** ** The outside world *)

Definition bytes := list Byte.byte.

(** What [requests.get] returns. *)
Record http_response := HttpResponse {
  status_code : Z;
  reason : string;
  response_url : string;
  content : bytes
}.

(** The capabilities of the libraries and of the process environment.
    Each may raise. *)
Record World := {
  (* os.getenv *)
  getenv : string -> option string;
  (* requests.get(url, auth=(user, password)) *)
  requests_get : string -> option string * option string -> result http_response;
  (* AudioSegment.from_ogg(path), given what the file holds (None: no file) *)
  from_ogg : option bytes -> result bytes;
  (* audio.export(path, format=fmt): the bytes written *)
  export : bytes -> string -> bytes;
  (* model.transcribe(path, language=l, task=t)["text"], given what the file holds *)
  model_transcribe : option bytes -> string -> string -> result string;
  (* twilio_client.messages.create(body=b, from_=f, to=t).sid *)
  messages_create : string -> string -> string -> result string;
  (* RequestValidator(token): the object's validate(url, params, signature) *)
  RequestValidator : option string -> result (string -> gmap string string -> string -> bool)
}.

(** ** State: files, outbound calls, log *)

Inductive call :=
| Fetch (media_url : string) (auth : option string * option string)
| Transcribe (file_path : string)
| Send (body from_ to : string).

Inductive level := DEBUG | INFO | ERROR.

(** The pieces of a logged f-string. *)
Inductive piece :=
| Lit (s : string)
| Str (s : string)
| Int (z : Z)
| Dict (d : gmap string string)
| Bytes (b : bytes).

Definition log_record := (level * list piece)%type.

Record state := State {
  files : gmap string bytes;   (* the working directory *)
  calls : list call;           (* calls made to the outside, oldest first *)
  logs : list log_record       (* oldest first *)
}.

(** ** The monad of handlers *)

Definition M (A : Type) : Type := state -> result A * state.

Definition ret {A} (a : A) : M A := fun st => (Ok a, st).

Definition raise {A} (e : exn) : M A := fun st => (Raise e, st).

Definition bind {A B} (m : M A) (k : A -> M B) : M B :=
  fun st =>
    match m st with
    | (Ok a, st') => k a st'
    | (Raise e, st') => (Raise e, st')
    end.

(** [try: body  except Exception as e: handler e] *)
Definition try_except {A} (body : M A) (handler : exn -> M A) : M A :=
  fun st =>
    match body st with
    | (Ok a, st') => (Ok a, st')
    | (Raise e, st') => handler e st'
    end.

Definition lift {A} (r : result A) : M A := fun st => (r, st).

Declare Scope py_scope.
Delimit Scope py_scope with py.
Notation "x <- m ;; k" := (bind m (fun x => k))
  (at level 100, m at next level, right associativity) : py_scope.
Notation "m ;; k" := (bind m (fun _ => k))
  (at level 100, right associativity) : py_scope.
Local Open Scope py_scope.

Definition log (l : level) (msg : list piece) : M unit :=
  fun st => (Ok tt, State (files st) (calls st) (logs st ++ [(l, msg)])).

Definition record (c : call) : M unit :=
  fun st => (Ok tt, State (files st) (calls st ++ [c]) (logs st)).

(** [with open(path, "wb") as f: f.write(data)] *)
Definition write_file (path : string) (data : bytes) : M unit :=
  fun st => (Ok tt, State (<[path := data]> (files st)) (calls st) (logs st)).

Definition read_file (path : string) : M (option bytes) :=
  fun st => (Ok (files st !! path), st).

(** [os.remove(path)] *)
Definition os_remove (path : string) : M unit :=
  fun st =>
    match files st !! path with
    | Some _ => (Ok tt, State (delete path (files st)) (calls st) (logs st))
    | None =>
        (Raise (Exn FileNotFoundError
                  ("[Errno 2] No such file or directory: " +:+ Py.repr path)), st)
    end.

(** ** The application *)

Section App.

Variable w : World.

(** [response.raise_for_status()] of requests: an error for the 4xx and
    5xx codes. *)
Definition raise_for_status (r : http_response) : result unit :=
  let describe (kind : string) :=
    Py.str_of_Z (status_code r) +:+ " " +:+ kind +:+ " Error: " +:+ reason r
    +:+ " for url: " +:+ response_url r in
  if ((400 <=? status_code r) && (status_code r <? 500))%Z
  then Raise (Exn HTTPError (describe "Client"))
  else if ((500 <=? status_code r) && (status_code r <? 600))%Z
  then Raise (Exn HTTPError (describe "Server"))
  else Ok tt.

(** The except clause of [download_audio].  It reads the local variable
    [response], which is bound only once [requests.get] has returned:
    [response] is [None] here while the variable is unbound, and reading it
    then raises UnboundLocalError in place of the re-raise. *)
Definition download_audio_except {A} (response : option http_response) (e : exn) : M A :=
  log ERROR [Lit "Error downloading audio: "; Str (text e)];;
  match response with
  | None =>
      raise (Exn UnboundLocalError
               "cannot access local variable 'response' where it is not associated with a value")
  | Some r =>
      log ERROR [Lit "Response content: "; Bytes (content r)];;
      raise e
  end.

(** [download_audio(url)].  The one try block is written in two parts, up to
    the binding of [response] and after it, each under the same except
    clause; the clause always raises, so the second part runs only when the
    first returned. *)
Definition download_audio (url : string) : M string :=
  let auth := (getenv w "TWILIO_ACCOUNT_SID", getenv w "TWILIO_AUTH_TOKEN") in
  response <- try_except
                (record (Fetch url auth);;
                 lift (requests_get w url auth))
                (download_audio_except None);;
  try_except
    (lift (raise_for_status response);;
     log DEBUG [Lit "Download response status: "; Int (status_code response)];;
     write_file "temp_audio.ogg" (content response);;
     ogg <- read_file "temp_audio.ogg";;
     audio <- lift (from_ogg w ogg);;
     write_file "temp_audio.wav" (export w audio "wav");;
     ret "temp_audio.wav")
    (download_audio_except (Some response)).

(** [transcribe_audio(file_path)] *)
Definition transcribe_audio (file_path : string) : M string :=
  record (Transcribe file_path);;
  audio <- read_file file_path;;
  lift (model_transcribe w audio "he" "transcribe").

(** [twilio_client.messages.create(body=..., from_=..., to=...)]: the sid
    of the message. *)
Definition twilio_messages_create (body from_ to : string) : M string :=
  record (Send body from_ to);;
  lift (messages_create w body from_ to).

(** [send_whatsapp_message(message, to_number)] *)
Definition send_whatsapp_message (message to_number : string) : M unit :=
  let from_number := "whatsapp:" +:+ Py.format_opt (getenv w "TWILIO_WHATSAPP_NUMBER") in
  let to_number := "whatsapp:" +:+ to_number in
  twilio_messages_create message from_number to_number;;
  ret tt.

(** A view function, reading the request of the call. *)
Definition view := request -> M response.

(** [abort(code)] of flask. *)
Definition abort {A} (code : Z) : M A :=
  raise (Exn (HTTPException code)
           (if (code =? 403)%Z
            then "403 Forbidden: You don't have the permission to access the requested resource. It is either read-protected or not readable by the server."
            else Py.str_of_Z code)).

(** [request.headers.get('X-Twilio-Signature', '')] *)
Definition twilio_signature_of (req : request) : string :=
  default "" (headers_lookup "X-Twilio-Signature" (headers req)).

(** The decorator [validate_twilio_request(f)]. *)
Definition validate_twilio_request (f : view) : view :=
  fun req =>
    validator <- lift (RequestValidator w (getenv w "TWILIO_AUTH_TOKEN"));;
    let twilio_signature := twilio_signature_of req in
    let url := url req in
    let form_data := to_dict (form req) in
    log DEBUG [Lit "Validating request with signature: "; Str twilio_signature];;
    log DEBUG [Lit "URL: "; Str url];;
    log DEBUG [Lit "Form data: "; Dict form_data];;
    if negb (validator url form_data twilio_signature)
    then log ERROR [Lit "Invalid Twilio request"];; abort 403
    else f req.

Definition home : view :=
  fun _ => ret ("Welcome to the WhatsApp Transcriber!", 200).

Definition favicon : view :=
  fun _ => ret ("", 204).

(** [request.values.get('From', '').split(':')[1]] *)
Definition sender_of (req : request) : result string :=
  Py.getitem (Py.split ":" (values_get_str req "From")) 1.

(** [int(request.values.get('NumMedia', 0))]; the default is the integer 0. *)
Definition num_media_of (req : request) : result Z :=
  match values_get req "NumMedia" with
  | Some s => Py.int s
  | None => Ok 0
  end.

(** [webhook()], registered for POST /webhook.  The decorator
    [validate_twilio_request] is commented out in the source. *)
Definition webhook : view :=
  fun req =>
    try_except
      (log DEBUG [Lit "=== Webhook Request Details ==="];;
       log DEBUG [Lit "Headers: "; Dict (dict_of_items (headers req))];;
       log DEBUG [Lit "Values: "; Dict (to_dict ((args req ++ form req)%list))];;
       log DEBUG [Lit "Form: "; Dict (to_dict (form req))];;
       log DEBUG [Lit "Args: "; Dict (to_dict (args req))];;
       log DEBUG [Lit "============================"];;
       let incoming_msg := values_get_str req "Body" in
       sender <- lift (sender_of req);;
       num_media <- lift (num_media_of req);;
       log INFO [Lit "Processing message from "; Str sender; Lit " with ";
                 Int num_media; Lit " media items"];;
       if (0 <? num_media)%Z then
         let media_type := values_get_str req "MediaContentType0" in
         if Py.contains "audio" media_type then
           let media_url := values_get_str req "MediaUrl0" in
           log INFO [Lit "Processing audio from URL: "; Str media_url];;
           try_except
             (audio_file <- download_audio media_url;;
              transcription <- transcribe_audio audio_file;;
              let from_number :=
                "whatsapp:" +:+ Py.format_opt (getenv w "TWILIO_WHATSAPP_NUMBER") in
              let to_number := "whatsapp:" +:+ sender in
              message_sid <- twilio_messages_create transcription from_number to_number;;
              log INFO [Lit "Sent transcription message: "; Str message_sid];;
              os_remove "temp_audio.ogg";;
              os_remove "temp_audio.wav";;
              ret ("OK", 200))
             (fun e =>
                log ERROR [Lit "Error processing audio: "; Str (text e)];;
                ret (text e, 500))
         else ret ("OK", 200)
       else ret ("OK", 200))
      (fun e =>
         log ERROR [Lit "Webhook error: "; Str (text e)];;
         ret (text e, 500)).

(** [message_status()], registered for POST /status. *)
Definition message_status : view :=
  fun req =>
    try_except
      (let message_sid := values_get_str req "MessageSid" in
       let message_status := values_get_str req "MessageStatus" in
       log INFO [Lit "Message "; Str message_sid; Lit " status: "; Str message_status];;
       ret ("OK", 200))
      (fun e =>
         log ERROR [Lit "Status callback error: "; Str (text e)];;
         ret (text e, 500)).

Definition test : view :=
  fun _ =>
    log DEBUG [Lit "Test endpoint hit"];;
    ret ("Test endpoint working!", 200).

(** The routes of [app]: the view that runs for a method and a path.  Flask
    adds HEAD to every rule that accepts GET and runs the same view.  It
    answers OPTIONS on every rule by itself, without running a view, and any
    other method or path with 405 or 404: there is no view then. *)
Definition route (method path : string) : option view :=
  let get := String.eqb method "GET" || String.eqb method "HEAD" in
  if String.eqb path "/" && get then Some home
  else if String.eqb path "/favicon.ico" && get then Some favicon
  else if String.eqb path "/webhook" && String.eqb method "POST" then Some webhook
  else if String.eqb path "/status" && String.eqb method "POST" then Some message_status
  else if String.eqb path "/test" && (get || String.eqb method "POST")
  then Some test
  else None.

(** What flask answers for the outcome of a view: the status the view
    returned, the code of an HTTPException, 500 for any other exception. *)
Definition flask_status (r : result response) : Z :=
  match r with
  | Ok (_, status) => status
  | Raise e =>
      match cls e with
      | HTTPException code => code
      | _ => 500
      end
  end.

(** The [__main__] block, up to [app.run()]. *)
Definition required_vars : list string :=
  ["TWILIO_ACCOUNT_SID"; "TWILIO_AUTH_TOKEN"; "TWILIO_WHATSAPP_NUMBER"].

(** [not os.getenv(var)]: the variable is unset or empty. *)
Definition not_set (var : string) : bool :=
  match getenv w var with
  | None => true
  | Some value => String.eqb value EmptyString
  end.

(** The loop over [required_vars]. *)
Fixpoint check_vars (vars : list string) : result unit :=
  match vars with
  | [] => Ok tt
  | var :: rest =>
      if not_set var
      then Raise (Exn ValueError ("Missing required environment variable: " +:+ var))
      else check_vars rest
  end.

Definition main_check : result unit := check_vars required_vars.

End App.

(** ** What a run leaves behind *)

(** Two states agree when they hold the same files and the same trace of
    outbound calls; the log is not compared. *)
Definition agree (st1 st2 : state) : Prop :=
  files st1 = files st2 /\ calls st1 = calls st2.

(** Two computations are similar when, from states that agree, they give the
    same result and states that agree. *)
Definition sim {A} (m1 m2 : M A) : Prop :=
  forall st1 st2, agree st1 st2 ->
    fst (m1 st1) = fst (m2 st2) /\ agree (snd (m1 st1)) (snd (m2 st2)).

(** [post m st P Q]: run from [st], [m] returns a value and a state that
    satisfy [P], or raises an exception in a state that satisfies [Q]. *)
Definition post {A} (m : M A) (st : state)
    (P : A -> state -> Prop) (Q : exn -> state -> Prop) : Prop :=
  match m st with
  | (Ok a, st') => P a st'
  | (Raise e, st') => Q e st'
  end.

(** The strings [int] reads as an integer in base 10, after the grammar of
    the language: spaces, an optional sign, digits with single underscores
    between them, spaces. *)
Inductive digitpart : string -> Prop :=
| digitpart_digit c :
    Py.is_digit c = true -> digitpart (String c EmptyString)
| digitpart_cons c s :
    Py.is_digit c = true -> digitpart s -> digitpart (String c s)
| digitpart_underscore c s :
    Py.is_digit c = true -> digitpart s -> digitpart (String c (String "_" s)).

Inductive blank : string -> Prop :=
| blank_nil : blank EmptyString
| blank_cons c s : Py.is_space c = true -> blank s -> blank (String c s).

Inductive unsigned_literal : string -> Prop :=
| unsigned_intro d t : digitpart d -> blank t -> unsigned_literal (d +:+ t).

Inductive int_literal : string -> Prop :=
| literal_space c s : Py.is_space c = true -> int_literal s -> int_literal (String c s)
| literal_plus s : unsigned_literal s -> int_literal (String "+" s)
| literal_minus s : unsigned_literal s -> int_literal (String "-" s)
| literal_unsigned s : unsigned_literal s -> int_literal s.

(** The request with every [k] entry taken out of the query string and of
    the form. *)
Definition without_field (k : string) (req : request) : request :=
  let keep (p : string * string) := negb (String.eqb (fst p) k) in
  Request (url req) (headers req) (List.filter keep (args req)) (List.filter keep (form req)).

(** ** Worlds and requests for the examples *)

Module Examples.

Definition environ (k : string) : option string :=
  if String.eqb k "TWILIO_ACCOUNT_SID" then Some "AC0123"
  else if String.eqb k "TWILIO_AUTH_TOKEN" then Some "token"
  else if String.eqb k "TWILIO_WHATSAPP_NUMBER" then Some "+14155238886"
  else None.

Definition voice_note : bytes := [Byte.x4f; Byte.x67; Byte.x67; Byte.x53].

(** Every capability works; the validator accepts the signature "sig". *)
Definition working : World := {|
  getenv := environ;
  requests_get := fun u _ => Ok (HttpResponse 200 "OK" u voice_note);
  from_ogg := fun o =>
    match o with
    | Some b => Ok b
    | None => Raise (Exn FileNotFoundError "[Errno 2] No such file or directory: 'temp_audio.ogg'")
    end;
  export := fun b _ => b;
  model_transcribe := fun _ _ _ => Ok "shalom";
  messages_create := fun _ _ _ => Ok "SM123";
  RequestValidator := fun _ => Ok (fun _ _ s => String.eqb s "sig")
|}.

(** The media server answers 404. *)
Definition media_not_found : World := {|
  getenv := environ;
  requests_get := fun u _ => Ok (HttpResponse 404 "Not Found" u []);
  from_ogg := from_ogg working;
  export := export working;
  model_transcribe := model_transcribe working;
  messages_create := messages_create working;
  RequestValidator := RequestValidator working
|}.

(** The media server cannot be reached: [requests.get] raises. *)
Definition unreachable : World := {|
  getenv := environ;
  requests_get := fun _ _ => Raise (Exn (LibraryError "ConnectionError") "Connection refused");
  from_ogg := from_ogg working;
  export := export working;
  model_transcribe := model_transcribe working;
  messages_create := messages_create working;
  RequestValidator := RequestValidator working
|}.

(** The speech model fails. *)
Definition model_fails : World := {|
  getenv := environ;
  requests_get := requests_get working;
  from_ogg := from_ogg working;
  export := export working;
  model_transcribe := fun _ _ _ => Raise (Exn (LibraryError "RuntimeError") "CUDA out of memory");
  messages_create := messages_create working;
  RequestValidator := RequestValidator working
|}.

Definition empty_state : state := State ∅ [] [].

Definition post (form : multidict) : request :=
  Request "https://example.org/webhook" [] [] form.

Definition voice_message : request :=
  post [("Body", ""); ("From", "whatsapp:+972501234567"); ("NumMedia", "1");
        ("MediaContentType0", "audio/ogg");
        ("MediaUrl0", "https://api.twilio.com/media/ME1")].

Definition text_message : request :=
  post [("Body", "hello"); ("From", "whatsapp:+972501234567"); ("NumMedia", "0")].



(** A picture message whose NumMedia is no integer literal. *)
Definition picture_bad_NumMedia : request :=
  post [("Body", ""); ("From", "whatsapp:+972501234567"); ("NumMedia", "one");
        ("MediaContentType0", "image/jpeg");
        ("MediaUrl0", "https://api.twilio.com/media/ME2")].

Definition text_message_bye : request :=
  post [("Body", "bye"); ("From", "whatsapp:+972501234567"); ("NumMedia", "0")].

(** A message with no NumMedia field. *)
Definition no_NumMedia : request :=
  post [("Body", "hello"); ("From", "whatsapp:+972501234567")].

(** A message whose From has a channel and no identifier. *)
Definition empty_identifier : request :=
  post [("Body", "hello"); ("From", "whatsapp:"); ("NumMedia", "0")].

(** The sender number is not configured. *)
Definition no_number : World := {|
  getenv := fun k => if String.eqb k "TWILIO_WHATSAPP_NUMBER" then None else environ k;
  requests_get := requests_get working;
  from_ogg := from_ogg working;
  export := export working;
  model_transcribe := model_transcribe working;
  messages_create := messages_create working;
  RequestValidator := RequestValidator working
|}.

(** The validator cannot be built. *)
Definition no_validator : World := {|
  getenv := environ;
  requests_get := requests_get working;
  from_ogg := from_ogg working;
  export := export working;
  model_transcribe := model_transcribe working;
  messages_create := messages_create working;
  RequestValidator := fun _ =>
    Raise (Exn (LibraryError "AttributeError") "'NoneType' object has no attribute 'encode'")
|}.

(** The bytes of the media do not decode. *)
Definition not_ogg : World := {|
  getenv := environ;
  requests_get := requests_get working;
  from_ogg := fun _ => Raise (Exn (LibraryError "CouldntDecodeError") "Decoding failed");
  export := export working;
  model_transcribe := model_transcribe working;
  messages_create := messages_create working;
  RequestValidator := RequestValidator working
|}.

(** The message cannot be sent. *)
Definition send_fails : World := {|
  getenv := environ;
  requests_get := requests_get working;
  from_ogg := from_ogg working;
  export := export working;
  model_transcribe := model_transcribe working;
  messages_create := fun _ _ _ =>
    Raise (Exn (LibraryError "TwilioRestException") "HTTP 400 error: Unable to create record");
  RequestValidator := RequestValidator working
|}.

(** The voice message with the signature the example validator accepts. *)
Definition signed_voice_message : request :=
  Request "https://example.org/webhook" [("X-Twilio-Signature", "sig")] []
    (form voice_message).

(** The voice message sent to another URL, with other headers, more fields
    and the fields in another order. *)
Definition voice_message_reordered : request :=
  Request "https://example.org/webhook?retry=1" [("User-Agent", "TwilioProxy/1.1")]
    [("retry", "1")]
    [("MediaUrl0", "https://api.twilio.com/media/ME1");
     ("MediaContentType0", "audio/ogg"); ("NumMedia", "1");
     ("From", "whatsapp:+972501234567"); ("ProfileName", "Dana")].

(** A message that announces a negative number of media. *)
Definition negative_media : request :=
  post [("From", "whatsapp:+972501234567"); ("NumMedia", "-1");
        ("MediaContentType0", "audio/ogg");
        ("MediaUrl0", "https://api.twilio.com/media/ME1")].

(** A working directory with the files an earlier run left, and a file of
    its own. *)
Definition stale_state : state :=
  State (<["temp_audio.ogg" := [Byte.x00]]>
           (<["temp_audio.wav" := [Byte.x01]]>
              (<["notes.txt" := [Byte.x68; Byte.x69]]> ∅)))
        [Fetch "https://api.twilio.com/media/ME0" (Some "AC0123", Some "token")]
        [].

End Examples.

(** ** The builtins on examples *)

Example split_From : Py.split ":" "whatsapp:+15551234" = ["whatsapp"; "+15551234"].
Proof. reflexivity. Qed.

Example split_empty : Py.split ":" "" = [""].
Proof. reflexivity. Qed.

Example split_two : Py.split ":" "a:b:c" = ["a"; "b"; "c"].
Proof. reflexivity. Qed.

Example contains_audio : Py.contains "audio" "audio/ogg; codecs=opus" = true.
Proof. reflexivity. Qed.

Example contains_case : Py.contains "audio" "Audio/ogg" = false.
Proof. reflexivity. Qed.

Example int_plain : Py.int " 12 " = Ok 12.
Proof. reflexivity. Qed.

Example int_underscore : Py.int "-1_0" = Ok (-10).
Proof. reflexivity. Qed.

Example int_bad : Py.int "abc" =
  Raise (Exn ValueError "invalid literal for int() with base 10: 'abc'").
Proof. reflexivity. Qed.

Example int_empty : Py.int "" =
  Raise (Exn ValueError "invalid literal for int() with base 10: ''").
Proof. reflexivity. Qed.

Example int_double_underscore : Py.int "1__0" =
  Raise (Exn ValueError "invalid literal for int() with base 10: '1__0'").
Proof. reflexivity. Qed.

Example repr_quotes : Py.repr "it's" = String Py.dquote ("it's" +:+ String Py.dquote "").
Proof. reflexivity. Qed.

(** ** Rules for [post] *)

Section PostRules.

Context {A B : Type}.
Implicit Types (P : A -> state -> Prop) (Q : exn -> state -> Prop).

Lemma post_ret (a : A) st P Q : P a st -> post (ret a) st P Q.
Proof. exact id. Qed.

Lemma post_raise e st P Q : Q e st -> post (raise e) st P Q.
Proof. exact id. Qed.

Lemma post_lift (r : result A) st P Q :
  match r with Ok a => P a st | Raise e => Q e st end -> post (lift r) st P Q.
Proof. unfold post, lift. destruct r; exact id. Qed.

Lemma post_bind (m : M B) (k : B -> M A) st P Q :
  post m st (fun b st' => post (k b) st' P Q) Q -> post (bind m k) st P Q.
Proof. unfold post, bind. destruct (m st) as [[b|e] st']; exact id. Qed.

Lemma post_try_except (body : M A) (handler : exn -> M A) st P Q :
  post body st P (fun e st' => post (handler e) st' P Q) ->
  post (try_except body handler) st P Q.
Proof. unfold post, try_except. destruct (body st) as [[a|e] st']; exact id. Qed.

Lemma post_weaken (m : M A) st P Q (P' : A -> state -> Prop) (Q' : exn -> state -> Prop) :
  post m st P Q ->
  (forall a st', P a st' -> P' a st') ->
  (forall e st', Q e st' -> Q' e st') ->
  post m st P' Q'.
Proof. unfold post. destruct (m st) as [[a|e] st']; auto. Qed.

(** A computation that cannot raise returns. *)
Lemma post_returns (m : M A) st P :
  post m st P (fun _ _ => False) ->
  exists a, fst (m st) = Ok a /\ P a (snd (m st)).
Proof. unfold post. destruct (m st) as [[a|e] st']; simpl; [eauto | tauto]. Qed.

Lemma post_outcome (m : M A) st P Q :
  post m st P Q ->
  match fst (m st) with
  | Ok a => P a (snd (m st))
  | Raise e => Q e (snd (m st))
  end.
Proof. unfold post. destruct (m st) as [[a|e] st']; exact id. Qed.

End PostRules.

Lemma post_log l msg st (P : unit -> state -> Prop) Q :
  P tt (State (files st) (calls st) (logs st ++ [(l, msg)])) -> post (log l msg) st P Q.
Proof. exact id. Qed.

Lemma post_record c st (P : unit -> state -> Prop) Q :
  P tt (State (files st) (calls st ++ [c]) (logs st)) -> post (record c) st P Q.
Proof. exact id. Qed.

Lemma post_write_file path data st (P : unit -> state -> Prop) Q :
  P tt (State (<[path := data]> (files st)) (calls st) (logs st)) ->
  post (write_file path data) st P Q.
Proof. exact id. Qed.

Lemma post_read_file path st (P : option bytes -> state -> Prop) Q :
  P (files st !! path) st -> post (read_file path) st P Q.
Proof. exact id. Qed.

Lemma post_os_remove path st (P : unit -> state -> Prop) Q :
  match files st !! path with
  | Some _ => P tt (State (delete path (files st)) (calls st) (logs st))
  | None => Q (Exn FileNotFoundError
                 ("[Errno 2] No such file or directory: " +:+ Py.repr path)) st
  end ->
  post (os_remove path) st P Q.
Proof. unfold post, os_remove. destruct (files st !! path); exact id. Qed.

(** One step of a run: the rule of the head construct. *)
Ltac post_step :=
  lazymatch goal with
  | |- post (bind _ _) _ _ _ => apply post_bind
  | |- post (try_except _ _) _ _ _ => apply post_try_except
  | |- post (ret _) _ _ _ => apply post_ret
  | |- post (raise _) _ _ _ => apply post_raise
  | |- post (abort _) _ _ _ => apply post_raise
  | |- post (log _ _) _ _ _ => apply post_log
  | |- post (record _) _ _ _ => apply post_record
  | |- post (write_file _ _) _ _ _ => apply post_write_file
  | |- post (read_file _) _ _ _ => apply post_read_file
  | |- post (os_remove _) _ _ _ => apply post_os_remove
  | |- post (lift _) _ _ _ => apply post_lift
  end.

Ltac post_steps := repeat (post_step; cbn [files calls logs]).

(** ** Rules for [sim] *)

Lemma agree_refl st : agree st st.
Proof. split; reflexivity. Qed.

Section SimRules.

Context {A B : Type}.

Lemma sim_ret (a : A) : sim (ret a) (ret a).
Proof. intros st1 st2 H. split; [reflexivity | exact H]. Qed.

Lemma sim_raise (e : exn) : sim (@raise A e) (raise e).
Proof. intros st1 st2 H. split; [reflexivity | exact H]. Qed.

Lemma sim_lift (r : result A) : sim (lift r) (lift r).
Proof. intros st1 st2 H. split; [reflexivity | exact H]. Qed.

Lemma sim_bind (m1 m2 : M B) (k1 k2 : B -> M A) :
  sim m1 m2 -> (forall b, sim (k1 b) (k2 b)) -> sim (bind m1 k1) (bind m2 k2).
Proof.
  intros Hm Hk st1 st2 Hst. unfold bind.
  destruct (Hm st1 st2 Hst) as [Hres Hag].
  destruct (m1 st1) as [[b1|e1] s1], (m2 st2) as [[b2|e2] s2];
    simpl in Hres, Hag; inversion Hres; subst.
  - apply Hk, Hag.
  - split; [reflexivity | exact Hag].
Qed.

Lemma sim_try_except (b1 b2 : M A) (h1 h2 : exn -> M A) :
  sim b1 b2 -> (forall e, sim (h1 e) (h2 e)) ->
  sim (try_except b1 h1) (try_except b2 h2).
Proof.
  intros Hb Hh st1 st2 Hst. unfold try_except.
  destruct (Hb st1 st2 Hst) as [Hres Hag].
  destruct (b1 st1) as [[a1|e1] s1], (b2 st2) as [[a2|e2] s2];
    simpl in Hres, Hag; inversion Hres; subst.
  - split; [reflexivity | exact Hag].
  - apply Hh, Hag.
Qed.

End SimRules.

(** What is logged does not matter. *)
Lemma sim_log l1 msg1 l2 msg2 : sim (log l1 msg1) (log l2 msg2).
Proof. intros st1 st2 H. split; [reflexivity | exact H]. Qed.

Lemma sim_record c : sim (record c) (record c).
Proof.
  intros st1 st2 [Hf Hc]. split; [reflexivity|].
  split; simpl; congruence.
Qed.

Lemma sim_write_file path data : sim (write_file path data) (write_file path data).
Proof.
  intros st1 st2 [Hf Hc]. split; [reflexivity|].
  split; simpl; congruence.
Qed.

Lemma sim_read_file path : sim (read_file path) (read_file path).
Proof.
  intros st1 st2 [Hf Hc]. unfold read_file; simpl. rewrite Hf.
  split; [reflexivity | split; assumption].
Qed.

Lemma sim_os_remove path : sim (os_remove path) (os_remove path).
Proof.
  intros st1 st2 [Hf Hc]. unfold os_remove. rewrite Hf.
  destruct (files st2 !! path); simpl.
  - split; [reflexivity | split; simpl; congruence].
  - split; [reflexivity | split; assumption].
Qed.

Ltac sim_step :=
  lazymatch goal with
  | |- sim (bind _ _) (bind _ _) => apply sim_bind; [| intros ?]
  | |- sim (try_except _ _) (try_except _ _) => apply sim_try_except; [| intros ?]
  | |- sim (log _ _) (log _ _) => apply sim_log
  | |- sim (ret _) (ret _) => apply sim_ret
  | |- sim (raise _) (raise _) => apply sim_raise
  | |- sim (lift _) (lift _) => apply sim_lift
  | |- sim (record _) (record _) => apply sim_record
  | |- sim (write_file _ _) (write_file _ _) => apply sim_write_file
  | |- sim (read_file _) (read_file _) => apply sim_read_file
  | |- sim (os_remove _) (os_remove _) => apply sim_os_remove
  | |- sim (if ?b then _ else _) (if ?b then _ else _) => destruct b
  | |- sim (match ?o with Some _ => _ | None => _ end)
           (match ?o with Some _ => _ | None => _ end) => destruct o
  end.

Lemma sim_download_audio w url : sim (download_audio w url) (download_audio w url).
Proof. unfold download_audio, download_audio_except. repeat sim_step. Qed.

Lemma sim_transcribe_audio w path : sim (transcribe_audio w path) (transcribe_audio w path).
Proof. unfold transcribe_audio. repeat sim_step. Qed.

Lemma sim_twilio_messages_create w body from_ to :
  sim (twilio_messages_create w body from_ to) (twilio_messages_create w body from_ to).
Proof. unfold twilio_messages_create. repeat sim_step. Qed.

(** ** The builtins *)

Lemma split_not_nil sep s : Py.split sep s <> [].
Proof.
  destruct s as [|c s']; simpl; [discriminate|].
  destruct (Ascii.eqb c sep); [discriminate|].
  destruct (Py.split sep s'); discriminate.
Qed.

Lemma prefix_char c s :
  String.prefix (String c "") s =
  match s with
  | String c' _ => Ascii.eqb c' c
  | EmptyString => false
  end.
Proof.
  destruct s as [|c' s']; simpl; [reflexivity|].
  destruct (ascii_dec c c') as [->|Hne].
  - rewrite Ascii.eqb_refl. destruct s'; reflexivity.
  - symmetry. apply Ascii.eqb_neq. congruence.
Qed.

(** [s.split(sep)] has a second item exactly when [sep] occurs in [s]. *)
Lemma split_second sep s :
  nth_error (Py.split sep s) 1 = None <-> Py.contains (String sep "") s = false.
Proof.
  induction s as [|c s' IH].
  - simpl. tauto.
  - cbn [Py.split Py.contains]. rewrite prefix_char.
    pose proof (split_not_nil sep s') as Hnil.
    destruct (Ascii.eqb c sep); simpl.
    + destruct (Py.split sep s'); [congruence|]. split; discriminate.
    + destruct (Py.split sep s') as [|x xs]; [congruence|]. simpl in *. exact IH.
Qed.

Lemma sender_of_raises req :
  Py.contains ":" (values_get_str req "From") = false ->
  sender_of req = Raise (Exn IndexError "list index out of range").
Proof.
  intros H. apply split_second in H. unfold sender_of, Py.getitem.
  now rewrite H.
Qed.

Lemma sender_of_returns req :
  Py.contains ":" (values_get_str req "From") = true ->
  exists sender, sender_of req = Ok sender.
Proof.
  intros H. unfold sender_of, Py.getitem.
  destruct (nth_error _ 1) as [x|] eqn:E; [eauto|].
  apply split_second in E. congruence.
Qed.

Lemma int_error_text s e : Py.int s = Raise e -> text e <> "".
Proof.
  unfold Py.int.
  destruct (Py.strip_sign (Py.skip_spaces s)) as [negative s2].
  destruct (Py.scan_digits s2 None 0 0) as [[[v digits] rest]|].
  - destruct (_ <? _)%nat; [intros [= <-]; discriminate|].
    destruct (Py.skip_spaces rest); [discriminate|].
    intros [= <-]; discriminate.
  - intros [= <-]; discriminate.
Qed.

(** *** The literals [int] accepts *)

Lemma digit_class c :
  Py.is_digit c = true ->
  Py.is_space c = false /\ Ascii.eqb c "_" = false /\
  Ascii.eqb c "+" = false /\ Ascii.eqb c "-" = false.
Proof.
  destruct c as [b0 b1 b2 b3 b4 b5 b6 b7].
  destruct b0, b1, b2, b3, b4, b5, b6, b7; vm_compute; intros H;
    first [discriminate H | repeat split].
Qed.

Lemma space_class c :
  Py.is_space c = true -> Py.is_digit c = false /\ Ascii.eqb c "_" = false.
Proof.
  destruct c as [b0 b1 b2 b3 b4 b5 b6 b7].
  destruct b0, b1, b2, b3, b4, b5, b6, b7; vm_compute; intros H;
    first [discriminate H | repeat split].
Qed.

Lemma digitpart_head d :
  digitpart d -> exists c d', d = String c d' /\ Py.is_digit c = true.
Proof. intros [c Hc|c s Hc _|c s Hc _]; eauto. Qed.

(** What [scan_digits] has read after a digit or an underscore is the rest
    of a digit part. *)
Lemma scan_digits_sound s : forall p acc n v d rest,
  Py.scan_digits s (Some p) acc n = Some (v, d, rest) ->
  (Py.is_digit p = true -> exists t, s = t +:+ rest /\ digitpart (String p t)) /\
  (p = "_"%char -> exists t, s = t +:+ rest /\ digitpart t).
Proof.
  induction s as [|c s IH]; intros p acc n v d rest; cbn [Py.scan_digits]; cbv zeta.
  - destruct (Ascii.eqb p "_") eqn:Ep; [discriminate|]. intros [= <- <- <-]. split.
    + intros Hp. exists "". split; [reflexivity | constructor; exact Hp].
    + intros ->. rewrite Ascii.eqb_refl in Ep. discriminate.
  - destruct (Py.is_digit c) eqn:Ec.
    + intros H. destruct (IH _ _ _ _ _ _ H) as [Hd _].
      destruct (Hd Ec) as (t & -> & Ht). split.
      * intros Hp. exists (String c t). split; [reflexivity|].
        apply digitpart_cons; assumption.
      * intros _. exists (String c t). split; [reflexivity | exact Ht].
    + destruct (Ascii.eqb c "_") eqn:Eu.
      * apply Ascii.eqb_eq in Eu. subst c.
        destruct (Ascii.eqb p "_") eqn:Ep; [discriminate|].
        intros H. destruct (IH _ _ _ _ _ _ H) as [_ Hu].
        destruct (Hu eq_refl) as (t & -> & Ht). split.
        -- intros Hp. exists (String "_" t). split; [reflexivity|].
           apply digitpart_underscore; assumption.
        -- intros ->. rewrite Ascii.eqb_refl in Ep. discriminate.
      * destruct (Ascii.eqb p "_") eqn:Ep; [discriminate|]. intros [= <- <- <-]. split.
        -- intros Hp. exists "". split; [reflexivity | constructor; exact Hp].
        -- intros ->. rewrite Ascii.eqb_refl in Ep. discriminate.
Qed.

Lemma scan_digits_start s v d rest :
  Py.scan_digits s None 0 0 = Some (v, d, rest) ->
  exists t, s = t +:+ rest /\ digitpart t.
Proof.
  destruct s as [|c s]; cbn [Py.scan_digits]; cbv zeta; [discriminate|].
  destruct (Py.is_digit c) eqn:Ec.
  - intros H. destruct (scan_digits_sound _ _ _ _ _ _ _ H) as [Hd _].
    destruct (Hd Ec) as (t & -> & Ht). exists (String c t). split; [reflexivity | exact Ht].
  - destruct (Ascii.eqb c "_"); discriminate.
Qed.

Lemma scan_digits_count s : forall prev acc n v d rest,
  Py.scan_digits s prev acc n = Some (v, d, rest) ->
  (d <= n + String.length s)%nat.
Proof.
  induction s as [|c s IH]; intros prev acc n v d rest; cbn [Py.scan_digits]; cbv zeta.
  - destruct prev as [p|]; [|discriminate].
    destruct (Ascii.eqb p "_"); [discriminate|]. intros [= <- <- <-]. simpl. lia.
  - destruct (Py.is_digit c).
    + intros H. apply IH in H. simpl. lia.
    + destruct (Ascii.eqb c "_").
      * destruct prev as [p|]; [|discriminate].
        destruct (Ascii.eqb p "_"); [discriminate|].
        intros H. apply IH in H. simpl. lia.
      * destruct prev as [p|]; [|discriminate].
        destruct (Ascii.eqb p "_"); [discriminate|]. intros [= <- <- <-]. simpl. lia.
Qed.

Lemma skip_spaces_length s :
  (String.length (Py.skip_spaces s) <= String.length s)%nat.
Proof.
  induction s as [|c s IH]; cbn [Py.skip_spaces]; [lia|].
  destruct (Py.is_space c); simpl; lia.
Qed.

Lemma strip_sign_length s :
  (String.length (snd (Py.strip_sign s)) <= String.length s)%nat.
Proof.
  destruct s as [|c s]; cbn [Py.strip_sign]; [simpl; lia|].
  destruct (Ascii.eqb c "+"); [simpl; lia|].
  destruct (Ascii.eqb c "-"); simpl; lia.
Qed.

Lemma skip_spaces_blank s : Py.skip_spaces s = "" -> blank s.
Proof.
  induction s as [|c s IH]; cbn [Py.skip_spaces]; [constructor|].
  destruct (Py.is_space c) eqn:Ec; [|discriminate].
  intros H. constructor; auto.
Qed.

Lemma blank_skip_spaces s : blank s -> Py.skip_spaces s = "".
Proof.
  induction 1 as [|c s Hc _ IH]; cbn [Py.skip_spaces]; [reflexivity|].
  now rewrite Hc.
Qed.

Lemma int_literal_skip_spaces s : int_literal (Py.skip_spaces s) -> int_literal s.
Proof.
  induction s as [|c s IH]; cbn [Py.skip_spaces]; [exact id|].
  destruct (Py.is_space c) eqn:Ec; [|exact id].
  intros H. apply literal_space; auto.
Qed.

(** A literal starts with a space, a sign or a digit. *)
Lemma int_literal_first c s :
  int_literal (String c s) ->
  Py.is_space c = true \/ c = "+"%char \/ c = "-"%char \/ Py.is_digit c = true.
Proof.
  intros H. inversion H as [c' s' Hc _| | |s' Hu]; subst; auto.
  inversion Hu as [d t Hd Ht Heq].
  destruct (digitpart_head d Hd) as (c' & d' & -> & Hc').
  injection Heq as -> _. auto.
Qed.

(** [int] refuses what is no literal: with "invalid literal", or with
    "Exceeds the limit" when more than 4300 digits were read first. *)
Lemma int_refuses_non_literal s :
  ~ int_literal s ->
  Py.int s = Raise (Py.invalid_literal s) \/
  exists digits,
    (4300 < digits <= String.length s)%nat /\
    Py.int s = Raise (Py.too_many_digits digits).
Proof.
  intros Hnot. unfold Py.int.
  pose proof (strip_sign_length (Py.skip_spaces s)) as Hlen1.
  pose proof (skip_spaces_length s) as Hlen2.
  destruct (Py.strip_sign (Py.skip_spaces s)) as [negative s2] eqn:Esign.
  destruct (Py.scan_digits s2 None 0 0) as [[[v d] rest]|] eqn:Escan; [|left; reflexivity].
  destruct (Py.max_str_digits <? d)%nat eqn:Elim.
  - right. exists d. split; [|reflexivity].
    apply Nat.ltb_lt in Elim. unfold Py.max_str_digits in Elim.
    apply scan_digits_count in Escan. simpl in Hlen1. lia.
  - destruct (Py.skip_spaces rest) eqn:Erest; [|left; reflexivity].
    exfalso. apply Hnot, int_literal_skip_spaces.
    destruct (scan_digits_start _ _ _ _ Escan) as (t & -> & Ht).
    apply skip_spaces_blank in Erest.
    pose proof (unsigned_intro t rest Ht Erest) as Hu.
    unfold Py.strip_sign in Esign.
    destruct (Py.skip_spaces s) as [|c s'].
    + injection Esign as _ Heq.
      destruct (digitpart_head t Ht) as (c0 & t' & Et & _).
      rewrite Et in Heq. simpl in Heq. discriminate Heq.
    + destruct (Ascii.eqb c "+") eqn:Eplus.
      { apply Ascii.eqb_eq in Eplus. subst c. injection Esign as _ ->.
        apply literal_plus, Hu. }
      destruct (Ascii.eqb c "-") eqn:Eminus.
      { apply Ascii.eqb_eq in Eminus. subst c. injection Esign as _ ->.
        apply literal_minus, Hu. }
      injection Esign as _ ->. apply literal_unsigned, Hu.
Qed.

Lemma scan_digits_blank rest c acc n :
  blank rest -> Py.is_digit c = true ->
  Py.scan_digits rest (Some c) acc n = Some (acc, n, rest).
Proof.
  intros Hrest Hc. destruct (digit_class c Hc) as (_ & Hu & _).
  destruct Hrest as [|sp r Hsp _]; cbn [Py.scan_digits]; cbv zeta.
  - now rewrite Hu.
  - destruct (space_class sp Hsp) as [-> ->]. now rewrite Hu.
Qed.

Lemma scan_digits_complete d :
  digitpart d -> forall rest, blank rest -> forall prev acc n,
  exists v k, Py.scan_digits (d +:+ rest) prev acc n = Some (v, k, rest).
Proof.
  induction 1 as [c Hc|c s Hc _ IH|c s Hc _ IH]; intros rest Hrest prev acc n.
  - change (String c "" +:+ rest) with (String c rest).
    cbn [Py.scan_digits]; cbv zeta. rewrite Hc.
    rewrite (scan_digits_blank rest c _ _ Hrest Hc). eauto.
  - change (String c s +:+ rest) with (String c (s +:+ rest)).
    cbn [Py.scan_digits]; cbv zeta. rewrite Hc. apply IH, Hrest.
  - change (String c (String "_" s) +:+ rest) with (String c (String "_" (s +:+ rest))).
    destruct (digit_class c Hc) as (_ & Hu & _).
    cbn [Py.scan_digits]; cbv zeta. rewrite Hc.
    change (Py.is_digit "_") with false. cbv iota.
    change (Ascii.eqb "_" "_") with true. cbv iota. rewrite Hu.
    apply IH, Hrest.
Qed.

(** [int] accepts every literal, up to the limit on the number of digits. *)
Lemma int_accepts_literal s :
  int_literal s ->
  (exists v, Py.int s = Ok v) \/
  (exists digits, (4300 < digits)%nat /\ Py.int s = Raise (Py.too_many_digits digits)).
Proof.
  intros Hlit.
  assert (Hparts : exists negative s2 v k rest,
             Py.strip_sign (Py.skip_spaces s) = (negative, s2) /\
             Py.scan_digits s2 None 0 0 = Some (v, k, rest) /\
             Py.skip_spaces rest = "").
  { assert (Hunsigned : forall u, unsigned_literal u ->
              exists v k rest, Py.scan_digits u None 0 0 = Some (v, k, rest) /\
                               Py.skip_spaces rest = "").
    { intros u [d t Hd Ht].
      destruct (scan_digits_complete d Hd t Ht None 0 0) as (v & k & Hscan).
      exists v, k, t. split; [exact Hscan | apply blank_skip_spaces, Ht]. }
    induction Hlit as [c s Hc _ IH|s Hu|s Hu|s Hu].
    - cbn [Py.skip_spaces]. rewrite Hc. exact IH.
    - change (Py.skip_spaces (String "+" s)) with (String "+"%char s).
      change (Py.strip_sign (String "+" s)) with (false, s).
      destruct (Hunsigned s Hu) as (v & k & rest & H1 & H2). eauto 10.
    - change (Py.skip_spaces (String "-" s)) with (String "-"%char s).
      change (Py.strip_sign (String "-" s)) with (true, s).
      destruct (Hunsigned s Hu) as (v & k & rest & H1 & H2). eauto 10.
    - destruct (Hunsigned s Hu) as (v & k & rest & H1 & H2).
      destruct Hu as [d t Hd Ht].
      destruct (digitpart_head d Hd) as (c & d' & -> & Hc).
      destruct (digit_class c Hc) as (Hsp & _ & Hplus & Hminus).
      change (String c d' +:+ t) with (String c (d' +:+ t)) in *.
      cbn [Py.skip_spaces]. rewrite Hsp.
      cbn [Py.strip_sign]. rewrite Hplus, Hminus. eauto 10. }
  destruct Hparts as (negative & s2 & v & k & rest & Hsign & Hscan & Hrest).
  unfold Py.int. rewrite Hsign, Hscan.
  destruct (Py.max_str_digits <? k)%nat eqn:Elim.
  - right. exists k. apply Nat.ltb_lt in Elim. split; [exact Elim | reflexivity].
  - left. rewrite Hrest. eauto.
Qed.

(** ** The media fetcher *)

Section Handlers.

Variable w : World.

Let auth := (getenv w "TWILIO_ACCOUNT_SID", getenv w "TWILIO_AUTH_TOKEN").

Let from_number := "whatsapp:" +:+ Py.format_opt (getenv w "TWILIO_WHATSAPP_NUMBER").

(** The working directory once both temporary files are written. *)
Let both_files (r : http_response) (audio : bytes) (fs : gmap string bytes) :=
  <["temp_audio.wav" := export w audio "wav"]> (<["temp_audio.ogg" := content r]> fs).

Let unbound_response :=
  Exn UnboundLocalError
    "cannot access local variable 'response' where it is not associated with a value".

(** The body of the inner try block of [webhook]. *)
Local Abbreviation pipeline media_url sender :=
  (audio_file <- download_audio w media_url;;
   transcription <- transcribe_audio w audio_file;;
   message_sid <- twilio_messages_create w transcription
                    ("whatsapp:" +:+ Py.format_opt (getenv w "TWILIO_WHATSAPP_NUMBER"))
                    ("whatsapp:" +:+ sender);;
   log INFO [Lit "Sent transcription message: "; Str message_sid];;
   os_remove "temp_audio.ogg";;
   os_remove "temp_audio.wav";;
   ret ("OK", 200))%py.

(** [download_audio] makes one GET.  It returns when the GET answered, the
    status passed [raise_for_status] and the bytes were decoded; both
    temporary files are then written.  It raises in three ways: the GET
    raised, the status was refused, or the decoding failed after the
    encoded file was written. *)
Lemma download_audio_post url st :
  post (download_audio w url) st
    (fun path st' =>
       path = "temp_audio.wav" /\
       calls st' = (calls st ++ [Fetch url auth])%list /\
       exists r audio,
         requests_get w url auth = Ok r /\
         raise_for_status r = Ok tt /\
         from_ogg w (Some (content r)) = Ok audio /\
         files st' = both_files r audio (files st))
    (fun e st' =>
       calls st' = (calls st ++ [Fetch url auth])%list /\
       ((exists e0, requests_get w url auth = Raise e0 /\
                    e = unbound_response /\ files st' = files st) \/
        (exists r, requests_get w url auth = Ok r /\
                   raise_for_status r = Raise e /\ files st' = files st) \/
        (exists r, requests_get w url auth = Ok r /\
                   raise_for_status r = Ok tt /\
                   from_ogg w (Some (content r)) = Raise e /\
                   files st' = <["temp_audio.ogg" := content r]> (files st)))).
Proof.
  unfold download_audio. fold auth.
  post_steps.
  destruct (requests_get w url auth) as [r|e] eqn:Hget.
  - post_steps.
    destruct (raise_for_status r) as [[]|e] eqn:Hstatus.
    + post_steps. rewrite lookup_insert_eq.
      destruct (from_ogg w (Some (content r))) as [audio|e] eqn:Hogg.
      * post_steps. unfold both_files. eauto 10.
      * unfold download_audio_except. post_steps. eauto 10.
    + unfold download_audio_except. post_steps. eauto 10.
  - unfold download_audio_except. post_steps. unfold unbound_response. eauto 10.
Qed.

(** A 4xx or 5xx answer makes [download_audio] raise the HTTPError of
    [raise_for_status], with no file written. *)
Lemma download_audio_http_error url st r e :
  requests_get w url auth = Ok r ->
  raise_for_status r = Raise e ->
  fst (download_audio w url st) = Raise e /\
  files (snd (download_audio w url st)) = files st.
Proof.
  intros Hget Hstatus. unfold download_audio. fold auth.
  unfold bind, try_except, record, lift, download_audio_except, log, raise.
  cbn. rewrite Hget. cbn. rewrite Hstatus. cbn. auto.
Qed.

(** When [requests.get] itself raises, the except clause fails on the
    unbound [response] and the error of the GET is lost. *)
Lemma download_audio_get_raises url st e :
  requests_get w url auth = Raise e ->
  fst (download_audio w url st) =
    Raise (Exn UnboundLocalError
             "cannot access local variable 'response' where it is not associated with a value").
Proof.
  intros Hget. unfold download_audio. fold auth.
  unfold bind, try_except, record, lift, download_audio_except, log, raise.
  cbn. rewrite Hget. reflexivity.
Qed.

(** ** The webhook *)

(** The handler, on its branches.  [P] holds of what it answers when no
    audio is processed, [R] of what the audio pipeline answers. *)
Lemma webhook_branches req st (P R : response -> state -> Prop) :
  (forall e lg, sender_of req = Raise e ->
     P (text e, 500) (State (files st) (calls st) lg)) ->
  (forall sender e lg, sender_of req = Ok sender -> num_media_of req = Raise e ->
     P (text e, 500) (State (files st) (calls st) lg)) ->
  (forall sender n lg, sender_of req = Ok sender -> num_media_of req = Ok n ->
     (0 <? n)%Z && Py.contains "audio" (values_get_str req "MediaContentType0") = false ->
     P ("OK", 200) (State (files st) (calls st) lg)) ->
  (forall sender n lg, sender_of req = Ok sender -> num_media_of req = Ok n ->
     (0 <? n)%Z = true ->
     Py.contains "audio" (values_get_str req "MediaContentType0") = true ->
     post (pipeline (values_get_str req "MediaUrl0") sender)
          (State (files st) (calls st) lg)
          R
          (fun e st' => forall lg', R (text e, 500) (State (files st') (calls st') lg'))) ->
  exists resp,
    fst (webhook w req st) = Ok resp /\
    (P resp (snd (webhook w req st)) \/ R resp (snd (webhook w req st))).
Proof.
  intros Hsender Hnum Hskip Haudio.
  apply (post_returns _ _ (fun resp st' => P resp st' \/ R resp st')).
  unfold webhook. post_steps.
  destruct (sender_of req) as [sender|e] eqn:Es in |- *; post_steps; [|left; eauto].
  destruct (num_media_of req) as [n|e] eqn:En in |- *; post_steps; [|left; eauto].
  destruct (0 <? n)%Z eqn:Epos in |- *;
    [|post_steps; left; eapply Hskip; eauto; rewrite Epos; reflexivity].
  destruct (Py.contains _ _) eqn:Eaudio in |- *;
    [|post_steps; left; eapply Hskip; eauto; rewrite Eaudio; apply andb_false_r].
  apply post_bind, post_log; cbn [files calls logs]. apply post_try_except.
  eapply post_weaken; [eapply (Haudio sender n); eauto | |].
  - intros resp st' HR. right. exact HR.
  - intros e st' HR. post_steps. right. apply HR.
Qed.

(** The inner try block, in full: how it ends, the calls it makes and the
    files it leaves. *)
Lemma pipeline_post url sender st :
  post (pipeline url sender) st
    (fun resp st' =>
       resp = ("OK", 200) /\
       exists r audio t sid,
         requests_get w url auth = Ok r /\
         raise_for_status r = Ok tt /\
         from_ogg w (Some (content r)) = Ok audio /\
         model_transcribe w (Some (export w audio "wav")) "he" "transcribe" = Ok t /\
         messages_create w t from_number ("whatsapp:" +:+ sender) = Ok sid /\
         calls st' = (calls st ++ [Fetch url auth; Transcribe "temp_audio.wav";
                                   Send t from_number ("whatsapp:" +:+ sender)])%list /\
         files st' = delete "temp_audio.wav"
                       (delete "temp_audio.ogg" (both_files r audio (files st))))
    (fun e st' =>
       (calls st' = (calls st ++ [Fetch url auth])%list /\
        ((exists e0, requests_get w url auth = Raise e0 /\
                     e = unbound_response /\ files st' = files st) \/
         (exists r, requests_get w url auth = Ok r /\
                    raise_for_status r = Raise e /\ files st' = files st) \/
         (exists r, requests_get w url auth = Ok r /\
                    raise_for_status r = Ok tt /\
                    from_ogg w (Some (content r)) = Raise e /\
                    files st' = <["temp_audio.ogg" := content r]> (files st)))) \/
       (exists r audio,
          requests_get w url auth = Ok r /\
          raise_for_status r = Ok tt /\
          from_ogg w (Some (content r)) = Ok audio /\
          files st' = both_files r audio (files st) /\
          ((model_transcribe w (Some (export w audio "wav")) "he" "transcribe" = Raise e /\
            calls st' = (calls st ++ [Fetch url auth; Transcribe "temp_audio.wav"])%list) \/
           (exists t,
              model_transcribe w (Some (export w audio "wav")) "he" "transcribe" = Ok t /\
              messages_create w t from_number ("whatsapp:" +:+ sender) = Raise e /\
              calls st' = (calls st ++ [Fetch url auth; Transcribe "temp_audio.wav";
                                        Send t from_number ("whatsapp:" +:+ sender)])%list)))).
Proof.
  apply post_bind.
  eapply post_weaken; [apply download_audio_post | | ].
  2:{ intros e st' H. left. exact H. }
  intros path [fs1 cs1 lg1] (-> & Hcalls & r & audio & Hget & Hstatus & Hogg & Hfiles).
  cbn [files calls] in Hcalls, Hfiles. subst fs1 cs1.
  unfold transcribe_audio, twilio_messages_create. post_steps.
  unfold both_files at 1. rewrite lookup_insert_eq.
  destruct (model_transcribe w _ _ _) as [t|e] eqn:Htr.
  2:{ right. exists r, audio. rewrite <- app_assoc. simpl. eauto 10. }
  post_steps. fold from_number.
  destruct (messages_create w _ _ _) as [sid|e] eqn:Hsend.
  2:{ right. exists r, audio. rewrite <- !app_assoc. simpl. eauto 12. }
  post_steps. unfold both_files at 1.
  rewrite lookup_insert_ne by discriminate. rewrite lookup_insert_eq.
  post_steps.
  rewrite lookup_delete_ne by discriminate. unfold both_files at 1.
  rewrite lookup_insert_eq.
  post_steps. split; [reflexivity|].
  exists r, audio, t, sid. rewrite <- !app_assoc. simpl. eauto 12.
Qed.

End Handlers.

(** ** Properties of the handlers *)

Section Properties.

Variable w : World.

Let auth := (getenv w "TWILIO_ACCOUNT_SID", getenv w "TWILIO_AUTH_TOKEN").

(** C8.  Whatever the request, the state and the behaviour of the
    libraries, [webhook] raises nothing: every error of a stage (field
    parsing, download, decoding, transcription, sending, cleanup) is caught
    by one of its two except clauses, and the run ends with a response
    whose status is 200 or 500. *)
Theorem webhook_never_raises req st :
  exists body status,
    fst (webhook w req st) = Ok (body, status) /\ (status = 200 \/ status = 500).
Proof.
  destruct (webhook_branches w req st
              (fun resp _ => snd resp = 200 \/ snd resp = 500)
              (fun resp _ => snd resp = 200 \/ snd resp = 500))
    as ([body status] & Hresp & Hstatus); simpl; auto.
  - intros sender n lg _ _ _ _.
    eapply post_weaken; [apply pipeline_post | |].
    + intros resp st1 [-> _]. simpl. auto.
    + intros e st1 _ lg'. simpl. auto.
  - exists body, status. simpl in Hstatus. tauto.
Qed.



(** C7 (amended).  For a request whose From holds no colon (the field may
    be absent), or whose NumMedia is present and is no integer literal, the
    handler raises nothing and answers with status 500, not with a status of
    the 400 class; it makes no outbound call and touches no file.  The body
    is the text of the parsing error: "list index out of range" when From
    holds no colon; otherwise the "invalid literal" text of [int] with the
    repr of the field, or its "Exceeds the limit" text when the field starts
    with more than 4300 digits. *)
Theorem webhook_unparseable_fields req st :
  Py.contains ":" (values_get_str req "From") = false \/
  (exists s, values_get req "NumMedia" = Some s /\ ~ int_literal s) ->
  exists msg,
    fst (webhook w req st) = Ok (msg, 500) /\
    flask_status (fst (webhook w req st)) = 500 /\
    calls (snd (webhook w req st)) = calls st /\
    files (snd (webhook w req st)) = files st /\
    (Py.contains ":" (values_get_str req "From") = false ->
     msg = "list index out of range") /\
    (Py.contains ":" (values_get_str req "From") = true ->
     forall s, values_get req "NumMedia" = Some s ->
       msg = "invalid literal for int() with base 10: "
             +:+ String.substring 0 200 (Py.repr s) \/
       exists digits,
         (4300 < digits <= String.length s)%nat /\
         msg = "Exceeds the limit (4300 digits) for integer string conversion: value has "
               +:+ Py.str_of_Z (Z.of_nat digits)
               +:+ " digits; use sys.set_int_max_str_digits() to increase the limit").
Proof.
  intros Hbad.
  assert (Hint : forall s e, ~ int_literal s -> Py.int s = Raise e ->
            text e = "invalid literal for int() with base 10: "
                     +:+ String.substring 0 200 (Py.repr s) \/
            exists digits,
              (4300 < digits <= String.length s)%nat /\
              text e = "Exceeds the limit (4300 digits) for integer string conversion: value has "
                       +:+ Py.str_of_Z (Z.of_nat digits)
                       +:+ " digits; use sys.set_int_max_str_digits() to increase the limit").
  { intros s e Hnot He.
    destruct (int_refuses_non_literal s Hnot) as [H|(d & Hd & H)];
      rewrite H in He; injection He as <-.
    - left. reflexivity.
    - right. exists d. split; [exact Hd | reflexivity]. }
  assert (Hparse : forall sender n,
            sender_of req = Ok sender -> num_media_of req = Ok n -> False).
  { intros sender n Hs Hn. destruct Hbad as [Hfrom|(s & Hsome & Hnot)].
    - apply sender_of_raises in Hfrom. congruence.
    - unfold num_media_of in Hn. rewrite Hsome in Hn.
      destruct (int_refuses_non_literal s Hnot) as [H|(d & _ & H)]; congruence. }
  destruct (webhook_branches w req st
              (fun resp st' =>
                 calls st' = calls st /\ files st' = files st /\ snd resp = 500 /\
                 (Py.contains ":" (values_get_str req "From") = false ->
                  fst resp = "list index out of range") /\
                 (Py.contains ":" (values_get_str req "From") = true ->
                  forall s, values_get req "NumMedia" = Some s ->
                    fst resp = "invalid literal for int() with base 10: "
                               +:+ String.substring 0 200 (Py.repr s) \/
                    exists digits,
                      (4300 < digits <= String.length s)%nat /\
                      fst resp =
                        "Exceeds the limit (4300 digits) for integer string conversion: value has "
                        +:+ Py.str_of_Z (Z.of_nat digits)
                        +:+ " digits; use sys.set_int_max_str_digits() to increase the limit"))
              (fun _ _ => False))
    as ([msg status] & Hresp & [(Hc & Hf & Hs & Hfrom & Hnum)|[]]).
  - intros e lg He. cbn [calls files fst snd]. repeat split.
    + intros _. unfold sender_of, Py.getitem in He.
      destruct (nth_error _ 1); [discriminate|]. injection He as <-. reflexivity.
    + intros Hcolon. apply sender_of_returns in Hcolon as [sender Hsender]. congruence.
  - intros sender e lg Hsender He. cbn [calls files fst snd]. repeat split.
    + intros Hcolon. apply sender_of_raises in Hcolon. congruence.
    + intros _ s Hsome. unfold num_media_of in He. rewrite Hsome in He.
      destruct Hbad as [Hfrom|(s' & Hsome' & Hnot)].
      * apply sender_of_raises in Hfrom. congruence.
      * rewrite Hsome in Hsome'. injection Hsome' as <-. exact (Hint s e Hnot He).
  - intros sender n lg Hsender Hn _. destruct (Hparse sender n Hsender Hn).
  - intros sender n lg Hsender Hn _ _. destruct (Hparse sender n Hsender Hn).
  - cbn [fst snd] in Hs, Hfrom, Hnum. subst status. exists msg.
    rewrite Hresp. cbn [flask_status]. auto 10.
Qed.


(** *** Failures of the download *)

Section AudioRequest.

Variables (req : request) (st : state) (sender : string) (n : Z).
Hypothesis Hsender : sender_of req = Ok sender.
Hypothesis Hnum : num_media_of req = Ok n.
Hypothesis Hpos : (0 < n)%Z.
Hypothesis Haudio : Py.contains "audio" (values_get_str req "MediaContentType0") = true.

Let media_url := values_get_str req "MediaUrl0".

(** An audio request runs the inner try block: what holds of every end
    of the block holds of the answer. *)
Lemma webhook_audio (R : response -> state -> Prop) :
  (forall lg,
     post (audio_file <- download_audio w media_url;;
           transcription <- transcribe_audio w audio_file;;
           message_sid <- twilio_messages_create w transcription
                            ("whatsapp:" +:+ Py.format_opt (getenv w "TWILIO_WHATSAPP_NUMBER"))
                            ("whatsapp:" +:+ sender);;
           log INFO [Lit "Sent transcription message: "; Str message_sid];;
           os_remove "temp_audio.ogg";;
           os_remove "temp_audio.wav";;
           ret ("OK", 200))
          (State (files st) (calls st) lg)
          R
          (fun e st' => forall lg', R (text e, 500) (State (files st') (calls st') lg'))) ->
  exists resp, fst (webhook w req st) = Ok resp /\ R resp (snd (webhook w req st)).
Proof.
  intros Hblock.
  destruct (webhook_branches w req st (fun _ _ => False) R)
    as (resp & Hresp & [[]|HR]); eauto.
  - intros e lg He. congruence.
  - intros s e lg _ He. congruence.
  - intros s m lg _ Hm Hskip. rewrite Hnum in Hm. injection Hm as <-.
    apply Z.ltb_lt in Hpos. rewrite Hpos, Haudio in Hskip. discriminate.
  - intros s m lg Hs _ _ _. rewrite Hsender in Hs. injection Hs as <-.
    apply Hblock.
Qed.

(** A 4xx or 5xx status: the answer is 500 with the text of the
    HTTPError; one GET was made and nothing else, no file is written. *)
Lemma webhook_http_error r e :
  requests_get w media_url auth = Ok r ->
  raise_for_status r = Raise e ->
  fst (webhook w req st) = Ok (text e, 500) /\
  calls (snd (webhook w req st)) = (calls st ++ [Fetch media_url auth])%list /\
  files (snd (webhook w req st)) = files st.
Proof.
  intros Hget Hstatus.
  destruct (webhook_audio
              (fun resp st' =>
                 resp = (text e, 500) /\
                 calls st' = (calls st ++ [Fetch media_url auth])%list /\
                 files st' = files st))
    as (resp & Hresp & -> & Hc & Hf); [|auto].
  intros lg. eapply post_weaken; [apply pipeline_post | |]; cbn [calls files].
  - intros resp st' (_ & r' & audio' & t' & sid & Hget' & Hstatus' & _).
    fold auth media_url in Hget'. congruence.
  - intros e' st' Hcases lg'. cbn [calls files]. fold auth media_url in Hcases.
    destruct Hcases as [(Hc & [(e0 & Hget' & _)|[(r' & Hget' & Hstatus' & Hf)|
                               (r' & Hget' & Hstatus' & _)]])
                       |(r' & audio' & Hget' & Hstatus' & _)];
      try congruence.
    rewrite Hget in Hget'. injection Hget' as <-.
    rewrite Hstatus in Hstatus'. injection Hstatus' as <-. auto.
Qed.

(** [requests.get] raises: the answer is 500, but its body is the text
    of the UnboundLocalError of the except clause, not the text of the
    error of the GET. *)
Lemma webhook_get_raises e :
  requests_get w media_url auth = Raise e ->
  fst (webhook w req st) =
    Ok ("cannot access local variable 'response' where it is not associated with a value",
        500) /\
  calls (snd (webhook w req st)) = (calls st ++ [Fetch media_url auth])%list.
Proof.
  intros Hget.
  destruct (webhook_audio
              (fun resp st' =>
                 resp = ("cannot access local variable 'response' where it is not associated with a value", 500) /\
                 calls st' = (calls st ++ [Fetch media_url auth])%list))
    as (resp & Hresp & -> & Hc); [|auto].
  intros lg. eapply post_weaken; [apply pipeline_post | |]; cbn [calls files].
  - intros resp st' (_ & r' & audio' & t' & sid & Hget' & _).
    fold auth media_url in Hget'. congruence.
  - intros e' st' Hcases lg'. cbn [calls files]. fold auth media_url in Hcases.
    destruct Hcases as [(Hc & [(e0 & Hget' & -> & _)|[(r' & Hget' & _)|
                               (r' & Hget' & _)]])
                       |(r' & audio' & Hget' & _)];
      try congruence.
    auto.
Qed.

(** Whenever the download does not deliver decoded audio, the answer has
    status 500 and the only outbound call is the GET: nothing is sent. *)
Lemma webhook_download_failure :
  (forall r audio,
     requests_get w media_url auth = Ok r ->
     raise_for_status r = Ok tt ->
     from_ogg w (Some (content r)) <> Ok audio) ->
  exists msg,
    fst (webhook w req st) = Ok (msg, 500) /\
    calls (snd (webhook w req st)) = (calls st ++ [Fetch media_url auth])%list.
Proof.
  intros Hfail.
  destruct (webhook_audio
              (fun resp st' =>
                 snd resp = 500 /\
                 calls st' = (calls st ++ [Fetch media_url auth])%list))
    as ([msg status] & Hresp & Hs & Hc).
  - intros lg. eapply post_weaken; [apply pipeline_post | |]; cbn [calls files].
    + intros resp st' (_ & r' & audio' & t' & sid & Hget' & Hstatus' & Hogg' & _).
      fold auth media_url in Hget'. exfalso. eapply Hfail; eauto.
    + intros e' st' Hcases lg'. cbn [calls files]. fold auth media_url in Hcases.
      destruct Hcases as [(Hc & _)|(r' & audio' & Hget' & Hstatus' & Hogg' & _)].
      * auto.
      * exfalso. eapply Hfail; eauto.
  - simpl in Hs. subst status. eauto.
Qed.

(** *** The temporary files *)

(** After the answer 200 "OK" neither temporary file is left. *)
Lemma webhook_cleanup_on_success :
  fst (webhook w req st) = Ok ("OK", 200) ->
  files (snd (webhook w req st)) !! "temp_audio.ogg" = None /\
  files (snd (webhook w req st)) !! "temp_audio.wav" = None.
Proof.
  intros Hok.
  destruct (webhook_audio
              (fun resp st' =>
                 snd resp = 200 ->
                 files st' !! "temp_audio.ogg" = None /\
                 files st' !! "temp_audio.wav" = None))
    as (resp & Hresp & Hfiles).
  - intros lg. eapply post_weaken; [apply pipeline_post | |]; cbn [calls files].
    + intros resp st' (_ & r' & audio' & t' & sid & _ & _ & _ & _ & _ & _ & ->) _.
      rewrite lookup_delete_ne by discriminate.
      rewrite !lookup_delete_eq. auto.
    + intros e' st' _ lg'. simpl. discriminate.
  - rewrite Hok in Hresp. injection Hresp as <-. apply Hfiles. reflexivity.
Qed.

(** Once the download has written the two files, any later failure
    leaves them in place: the cleanup is the last step of the try block
    and runs only when the message was sent. *)
Lemma webhook_no_cleanup_on_failure r audio msg :
  requests_get w media_url auth = Ok r ->
  raise_for_status r = Ok tt ->
  from_ogg w (Some (content r)) = Ok audio ->
  fst (webhook w req st) = Ok (msg, 500) ->
  files (snd (webhook w req st)) !! "temp_audio.ogg" = Some (content r) /\
  files (snd (webhook w req st)) !! "temp_audio.wav" = Some (export w audio "wav").
Proof.
  intros Hget Hstatus Hogg Hfail.
  destruct (webhook_audio
              (fun resp st' =>
                 snd resp = 500 ->
                 files st' !! "temp_audio.ogg" = Some (content r) /\
                 files st' !! "temp_audio.wav" = Some (export w audio "wav")))
    as (resp & Hresp & Hfiles).
  - intros lg. eapply post_weaken; [apply pipeline_post | |]; cbn [calls files].
    + intros resp st' [-> _]. simpl. discriminate.
    + intros e' st' Hcases lg' _. cbn [calls files]. fold auth media_url in Hcases.
      destruct Hcases as [(Hc & [(e0 & Hget' & _)|[(r' & Hget' & Hstatus' & _)|
                                 (r' & Hget' & _ & Hogg' & _)]])
                         |(r' & audio' & Hget' & _ & Hogg' & -> & _)].
      * congruence.
      * rewrite Hget in Hget'. injection Hget' as <-. congruence.
      * rewrite Hget in Hget'. injection Hget' as <-. congruence.
      * rewrite Hget in Hget'. injection Hget' as <-.
        rewrite Hogg in Hogg'. injection Hogg' as <-.
        rewrite lookup_insert_ne by discriminate.
        rewrite !lookup_insert_eq. auto.
  - rewrite Hfail in Hresp. injection Hresp as <-. apply Hfiles. reflexivity.
Qed.

End AudioRequest.

End Properties.

(** ** The status callback *)

(** C9.  For every request and every state, [message_status] answers
    200 "OK"; it writes one log record and changes neither the files
    nor the trace of outbound calls.  Absent fields read as the empty
    string. *)
Theorem message_status_acknowledges (req : request) (st : state) :
  fst (message_status req st) = Ok ("OK", 200) /\
  flask_status (fst (message_status req st)) = 200 /\
  files (snd (message_status req st)) = files st /\
  calls (snd (message_status req st)) = calls st /\
  exists record, logs (snd (message_status req st)) = (logs st ++ [record])%list.
Proof.
  unfold message_status, try_except, bind, log, ret. cbn.
  repeat split. eexists. reflexivity.
Qed.

Lemma route_status w : route w "POST" "/status" = Some message_status.
Proof. reflexivity. Qed.

(** POST /webhook reaches [webhook] itself, with no validation before it. *)
Lemma route_webhook w : route w "POST" "/webhook" = Some (webhook w).
Proof. reflexivity. Qed.

(** ** The signature validator *)

Lemma twilio_signature_missing req :
  headers_lookup "X-Twilio-Signature" (headers req) = None ->
  twilio_signature_of req = "".
Proof. intros H. unfold twilio_signature_of. now rewrite H. Qed.

(** C2.  Let a view be wrapped by [validate_twilio_request], and let the
    validator built from the auth token answer false for the URL, the form
    and the signature of the request, where a request without the signature
    header is given the empty signature.  Then the wrapped call raises the
    HTTPException of [abort(403)], which flask answers with status 403; the
    outcome is one and the same for every view [f], so [f] has not run, and
    no file and no outbound call was touched. *)
Theorem validate_twilio_request_rejects (w : World) (req : request) (st : state)
    (validator : string -> gmap string string -> string -> bool) :
  RequestValidator w (getenv w "TWILIO_AUTH_TOKEN") = Ok validator ->
  validator (url req) (to_dict (form req)) (twilio_signature_of req) = false ->
  exists e st',
    (forall f, validate_twilio_request w f req st = (Raise e, st')) /\
    cls e = HTTPException 403 /\
    flask_status (Raise e) = 403 /\
    files st' = files st /\
    calls st' = calls st /\
    (headers_lookup "X-Twilio-Signature" (headers req) = None ->
     twilio_signature_of req = "").
Proof.
  intros Hnew Hreject.
  eexists. eexists. split.
  - intros f. unfold validate_twilio_request, bind, lift, log, abort, raise.
    rewrite Hnew. cbn. rewrite Hreject. cbn. reflexivity.
  - cbn. repeat split. apply twilio_signature_missing.
Qed.

(** A signature the validator accepts lets the view run. *)
Lemma validate_twilio_request_accepts (w : World) (f : view) (req : request) (st : state)
    (validator : string -> gmap string string -> string -> bool) :
  RequestValidator w (getenv w "TWILIO_AUTH_TOKEN") = Ok validator ->
  validator (url req) (to_dict (form req)) (twilio_signature_of req) = true ->
  exists lg,
    validate_twilio_request w f req st = f req (State (files st) (calls st) lg).
Proof.
  intros Hnew Haccept.
  unfold validate_twilio_request, bind, lift, log.
  rewrite Hnew. cbn. rewrite Haccept. cbn. eexists. reflexivity.
Qed.

(** ** The message body *)

Lemma multidict_get_filter k k' d :
  k <> k' ->
  multidict_get k (List.filter (fun p => negb (String.eqb (fst p) k')) d) = multidict_get k d.
Proof.
  intros Hne. induction d as [|[k0 v] d IH]; [reflexivity|].
  cbn [List.filter multidict_get fst].
  destruct (String.eqb k0 k') eqn:E; cbn [negb].
  - apply String.eqb_eq in E. subst k0.
    destruct (String.eqb k' k) eqn:E'; [|exact IH].
    apply String.eqb_eq in E'. congruence.
  - cbn [multidict_get]. destruct (String.eqb k0 k); [reflexivity | exact IH].
Qed.

Lemma values_get_without_field k k' req :
  k <> k' -> values_get (without_field k' req) k = values_get req k.
Proof.
  intros Hne. unfold values_get, without_field. cbn [args form].
  now rewrite !multidict_get_filter.
Qed.

(** [webhook] reads four fields of the request; two requests that agree on
    them are handled alike. *)
Lemma sim_webhook w r1 r2 :
  values_get r1 "From" = values_get r2 "From" ->
  values_get r1 "NumMedia" = values_get r2 "NumMedia" ->
  values_get r1 "MediaContentType0" = values_get r2 "MediaContentType0" ->
  values_get r1 "MediaUrl0" = values_get r2 "MediaUrl0" ->
  sim (webhook w r1) (webhook w r2).
Proof.
  intros HFrom HNum HType HUrl.
  unfold webhook, sender_of, num_media_of, values_get_str.
  rewrite HFrom, HNum, HType, HUrl.
  repeat sim_step;
    auto using sim_download_audio, sim_transcribe_audio, sim_twilio_messages_create.
Qed.

(** C10.  Two requests that differ only in their Body entries get the same
    response from [webhook], and the runs make the same outbound calls and
    leave the same files; only the log, which prints the request, can
    differ. *)
Theorem webhook_ignores_Body (w : World) (r1 r2 : request) (st : state) :
  without_field "Body" r1 = without_field "Body" r2 ->
  fst (webhook w r1 st) = fst (webhook w r2 st) /\
  calls (snd (webhook w r1 st)) = calls (snd (webhook w r2 st)) /\
  files (snd (webhook w r1 st)) = files (snd (webhook w r2 st)).
Proof.
  intros Hsame.
  assert (Hget : forall k, k <> "Body" -> values_get r1 k = values_get r2 k).
  { intros k Hk.
    rewrite <- (values_get_without_field k "Body" r1 Hk).
    rewrite <- (values_get_without_field k "Body" r2 Hk).
    now rewrite Hsame. }
  destruct (sim_webhook w r1 r2) with (st1 := st) (st2 := st) as [Hres [Hf Hc]];
    try (apply Hget; discriminate); auto using agree_refl.
Qed.

(** ** Further properties of the handlers *)

(** Two answers of one capability are the same answer. *)
Ltac same_answer :=
  repeat match goal with
         | H1 : ?o = Ok _, H2 : ?o = Raise _ |- _ => rewrite H1 in H2; discriminate H2
         | H1 : ?o = Raise _, H2 : ?o = Ok _ |- _ => rewrite H1 in H2; discriminate H2
         | H1 : ?o = Ok ?a, H2 : ?o = Ok ?b |- _ =>
             rewrite H1 in H2; injection H2 as ?; subst
         | H1 : ?o = Raise ?a, H2 : ?o = Raise ?b |- _ =>
             rewrite H1 in H2; injection H2 as ?; subst
         end.

Section FurtherProperties.

Variable w : World.

Let auth := (getenv w "TWILIO_ACCOUNT_SID", getenv w "TWILIO_AUTH_TOKEN").

Let from_number := "whatsapp:" +:+ Py.format_opt (getenv w "TWILIO_WHATSAPP_NUMBER").

(** The handler writes and removes the two temporary files only: every
    other file of the working directory is as it was, whatever the request
    and however the run ends. *)
Theorem webhook_touches_only_temp_files req st path :
  path <> "temp_audio.ogg" ->
  path <> "temp_audio.wav" ->
  files (snd (webhook w req st)) !! path = files st !! path.
Proof.
  intros Hogg Hwav.
  destruct (webhook_branches w req st
              (fun _ st' => files st' !! path = files st !! path)
              (fun _ st' => files st' !! path = files st !! path))
    as (resp & _ & [H|H]); auto.
  intros sender n lg _ _ _ _.
  eapply post_weaken; [apply pipeline_post | |]; cbn [calls files].
  - intros resp st' (_ & r & audio & t & sid & _ & _ & _ & _ & _ & _ & ->).
    rewrite !lookup_delete_ne, !lookup_insert_ne by congruence. reflexivity.
  - intros e st' Hcases lg'. cbn [files].
    destruct Hcases as [(_ & [(e0 & _ & _ & ->)|[(r & _ & _ & ->)|(r & _ & _ & _ & ->)]])
                       |(r & audio & _ & _ & _ & -> & _)];
      rewrite ?lookup_insert_ne by congruence; reflexivity.
Qed.

(** The outbound calls of one request are a prefix of: one GET of the media
    URL, one transcription of the normalized file, one message to the sender.
    So nothing is transcribed that was not fetched, nothing is sent that was
    not transcribed, and a request is answered with at most one message. *)
Theorem webhook_calls_in_order req st :
  exists new,
    calls (snd (webhook w req st)) = (calls st ++ new)%list /\
    (new = [] \/
     new = [Fetch (values_get_str req "MediaUrl0") auth] \/
     new = [Fetch (values_get_str req "MediaUrl0") auth; Transcribe "temp_audio.wav"] \/
     exists transcript sender,
       sender_of req = Ok sender /\
       new = [Fetch (values_get_str req "MediaUrl0") auth; Transcribe "temp_audio.wav";
              Send transcript from_number ("whatsapp:" +:+ sender)]).
Proof.
  set (shape := fun new : list call =>
         new = [] \/
         new = [Fetch (values_get_str req "MediaUrl0") auth] \/
         new = [Fetch (values_get_str req "MediaUrl0") auth; Transcribe "temp_audio.wav"] \/
         exists transcript sender,
           sender_of req = Ok sender /\
           new = [Fetch (values_get_str req "MediaUrl0") auth; Transcribe "temp_audio.wav";
                  Send transcript from_number ("whatsapp:" +:+ sender)]).
  change (exists new, calls (snd (webhook w req st)) = (calls st ++ new)%list /\ shape new).
  assert (Hnil : shape []) by (left; reflexivity).
  destruct (webhook_branches w req st
              (fun _ st' => exists new, calls st' = (calls st ++ new)%list /\ shape new)
              (fun _ st' => exists new, calls st' = (calls st ++ new)%list /\ shape new))
    as (resp & _ & [H|H]); auto.
  1-3: intros; exists []; cbn [calls]; rewrite app_nil_r; auto.
  intros sender n lg Hsender _ _ _.
  eapply post_weaken; [apply pipeline_post | |]; cbn [calls files].
  - intros resp st' (_ & r & audio & t & sid & _ & _ & _ & _ & _ & -> & _).
    eexists. split; [reflexivity|]. right; right; right. eauto.
  - intros e st' Hcases lg'. cbn [calls].
    destruct Hcases as [(-> & _)|(r & audio & _ & _ & _ & _ & [[_ ->]|(t & _ & _ & ->)])];
      (eexists; split; [reflexivity|]); unfold shape; eauto 10.
Qed.

(** What the handler answers and which calls it makes do not depend on the
    state it starts from: files left in the working directory by an earlier
    run, earlier calls and the log have no influence on a request. *)
Theorem webhook_independent_of_state req :
  exists resp new, forall st,
    fst (webhook w req st) = Ok resp /\
    calls (snd (webhook w req st)) = (calls st ++ new)%list.
Proof.
  unfold auth, from_number in *.
  assert (Hquiet : forall X,
             (forall e, sender_of req = Raise e -> X = (text e, 500)) ->
             (forall sender e, sender_of req = Ok sender -> num_media_of req = Raise e ->
                               X = (text e, 500)) ->
             (forall sender n, sender_of req = Ok sender -> num_media_of req = Ok n ->
                               X = ("OK", 200)) ->
             (forall sender n, sender_of req = Ok sender -> num_media_of req = Ok n ->
                        (0 <? n)%Z && Py.contains "audio" (values_get_str req "MediaContentType0")
                        = false) ->
             forall st, fst (webhook w req st) = Ok X /\
                        calls (snd (webhook w req st)) = (calls st ++ [])%list).
  { intros X HX1 HX2 HX3 Hskip st.
    destruct (webhook_branches w req st
                (fun resp st' => resp = X /\ calls st' = (calls st ++ [])%list)
                (fun _ _ => False))
      as (resp & Hr & [[-> Hc]|[]]); auto; cbn [calls]; rewrite ?app_nil_r.
    - intros e lg He. rewrite (HX1 e He). auto.
    - intros sender e lg Hs He. rewrite (HX2 sender e Hs He). auto.
    - intros sender n lg Hs Hn _. rewrite (HX3 sender n Hs Hn). auto.
    - intros sender n lg Hs Hn Hpos Haud. specialize (Hskip sender n Hs Hn).
      rewrite Hpos, Haud in Hskip. discriminate. }
  destruct (sender_of req) as [sender|e] eqn:Hs.
  2:{ exists (text e, 500), []. apply Hquiet; intros; try discriminate; congruence. }
  destruct (num_media_of req) as [n|e] eqn:Hn.
  2:{ exists (text e, 500), []. apply Hquiet; intros; try discriminate; congruence. }
  destruct ((0 <? n)%Z && Py.contains "audio" (values_get_str req "MediaContentType0"))
    eqn:Hrun.
  2:{ exists ("OK", 200), []. apply Hquiet; intros; try discriminate; congruence. }
  clear Hquiet. apply andb_true_iff in Hrun as [Hpos Haud]. apply Z.ltb_lt in Hpos.
  assert (Hleaf : forall X new,
             (forall st lg,
                post (audio_file <- download_audio w (values_get_str req "MediaUrl0");;
                      transcription <- transcribe_audio w audio_file;;
                      message_sid <- twilio_messages_create w transcription
                                       ("whatsapp:" +:+
                                        Py.format_opt (getenv w "TWILIO_WHATSAPP_NUMBER"))
                                       ("whatsapp:" +:+ sender);;
                      log INFO [Lit "Sent transcription message: "; Str message_sid];;
                      os_remove "temp_audio.ogg";;
                      os_remove "temp_audio.wav";;
                      ret ("OK", 200))
                     (State (files st) (calls st) lg)
                     (fun resp st' => resp = X /\ calls st' = (calls st ++ new)%list)
                     (fun e st' => (text e, 500) = X /\ calls st' = (calls st ++ new)%list)) ->
             exists resp new, forall st,
               fst (webhook w req st) = Ok resp /\
               calls (snd (webhook w req st)) = (calls st ++ new)%list).
  { intros X new Hblock. exists X, new. intros st.
    destruct (webhook_audio w req st sender n Hs Hn Hpos Haud
                (fun resp st' => resp = X /\ calls st' = (calls st ++ new)%list))
      as (resp & Hr & -> & Hc); [|auto].
    intros lg. eapply post_weaken; [apply Hblock | |]; cbn [calls files]; auto. }
  destruct (requests_get w (values_get_str req "MediaUrl0")
              (getenv w "TWILIO_ACCOUNT_SID", getenv w "TWILIO_AUTH_TOKEN"))
    as [r|e0] eqn:Hget.
  2:{ eapply Hleaf. intros st lg.
      eapply post_weaken; [apply pipeline_post | |]; cbn [calls files].
      - intros resp st' (_ & r' & audio' & t' & sid' & H1 & _). same_answer.
      - intros e' st' [(Hc & [(e0' & H1 & -> & _)|[(r' & H1 & _)|(r' & H1 & _)]])
                      |(r' & audio' & H1 & _)]; same_answer.
        split; [reflexivity | exact Hc]. }
  destruct (raise_for_status r) as [[]|e] eqn:Hstatus.
  2:{ eapply Hleaf. intros st lg.
      eapply post_weaken; [apply pipeline_post | |]; cbn [calls files].
      - intros resp st' (_ & r' & audio' & t' & sid' & H1 & H2 & _). same_answer.
      - intros e' st' [(Hc & [(e0' & H1 & _)|[(r' & H1 & H2 & _)|(r' & H1 & H2 & _)]])
                      |(r' & audio' & H1 & H2 & _)]; same_answer.
        split; [reflexivity | exact Hc]. }
  destruct (from_ogg w (Some (content r))) as [audio|e] eqn:Hdecode.
  2:{ eapply Hleaf. intros st lg.
      eapply post_weaken; [apply pipeline_post | |]; cbn [calls files].
      - intros resp st' (_ & r' & audio' & t' & sid' & H1 & H2 & H3 & _). same_answer.
      - intros e' st' [(Hc & [(e0' & H1 & _)|[(r' & H1 & H2 & _)|(r' & H1 & H2 & H3 & _)]])
                      |(r' & audio' & H1 & H2 & H3 & _)]; same_answer.
        split; [reflexivity | exact Hc]. }
  destruct (model_transcribe w (Some (export w audio "wav")) "he" "transcribe")
    as [t|e] eqn:Htr.
  2:{ eapply Hleaf. intros st lg.
      eapply post_weaken; [apply pipeline_post | |]; cbn [calls files].
      - intros resp st' (_ & r' & audio' & t' & sid' & H1 & H2 & H3 & H4 & _). same_answer.
      - intros e' st' [(Hc & [(e0' & H1 & _)|[(r' & H1 & H2 & _)|(r' & H1 & H2 & H3 & _)]])
                      |(r' & audio' & H1 & H2 & H3 & _ & [[H4 Hc]|(t' & H4 & _)])];
          same_answer.
        split; [reflexivity | exact Hc]. }
  destruct (messages_create w t
              ("whatsapp:" +:+ Py.format_opt (getenv w "TWILIO_WHATSAPP_NUMBER"))
              ("whatsapp:" +:+ sender)) as [sid|e] eqn:Hsend.
  2:{ eapply Hleaf. intros st lg.
      eapply post_weaken; [apply pipeline_post | |]; cbn [calls files].
      - intros resp st' (_ & r' & audio' & t' & sid' & H1 & H2 & H3 & H4 & H5 & _).
        same_answer.
      - intros e' st' [(Hc & [(e0' & H1 & _)|[(r' & H1 & H2 & _)|(r' & H1 & H2 & H3 & _)]])
                      |(r' & audio' & H1 & H2 & H3 & _ & [[H4 Hc]|(t' & H4 & H5 & Hc)])];
          same_answer.
        split; [reflexivity | exact Hc]. }
  eapply Hleaf. intros st lg.
  eapply post_weaken; [apply pipeline_post | |]; cbn [calls files].
  - intros resp st' (-> & r' & audio' & t' & sid' & H1 & H2 & H3 & H4 & H5 & Hc & _).
    same_answer. split; [reflexivity | exact Hc].
  - intros e' st' [(Hc & [(e0' & H1 & _)|[(r' & H1 & H2 & _)|(r' & H1 & H2 & H3 & _)]])
                  |(r' & audio' & H1 & H2 & H3 & _ & [[H4 Hc]|(t' & H4 & H5 & Hc)])];
      same_answer.
Qed.

(** The handler reads four fields of the request and nothing else: two
    requests with the same From, NumMedia, MediaContentType0 and MediaUrl0
    get the same response, the same outbound calls and the same files,
    whatever their URL, their headers, their other fields and the order of
    the fields. *)
Theorem webhook_reads_four_fields r1 r2 st :
  values_get r1 "From" = values_get r2 "From" ->
  values_get r1 "NumMedia" = values_get r2 "NumMedia" ->
  values_get r1 "MediaContentType0" = values_get r2 "MediaContentType0" ->
  values_get r1 "MediaUrl0" = values_get r2 "MediaUrl0" ->
  fst (webhook w r1 st) = fst (webhook w r2 st) /\
  calls (snd (webhook w r1 st)) = calls (snd (webhook w r2 st)) /\
  files (snd (webhook w r1 st)) = files (snd (webhook w r2 st)).
Proof.
  intros HFrom HNum HType HUrl.
  destruct (sim_webhook w r1 r2 HFrom HNum HType HUrl st st (agree_refl st))
    as [Hres [Hf Hc]].
  auto.
Qed.

(** With the decorator applied and a signature the validator accepts,
    [webhook] answers as it does unguarded: the same response, the same
    outbound calls, the same files.  The validation only adds log records. *)
Theorem guarded_webhook_transparent req st validator :
  RequestValidator w (getenv w "TWILIO_AUTH_TOKEN") = Ok validator ->
  validator (url req) (to_dict (form req)) (twilio_signature_of req) = true ->
  fst (validate_twilio_request w (webhook w) req st) = fst (webhook w req st) /\
  calls (snd (validate_twilio_request w (webhook w) req st)) = calls (snd (webhook w req st)) /\
  files (snd (validate_twilio_request w (webhook w) req st)) = files (snd (webhook w req st)).
Proof.
  intros Hnew Haccept.
  destruct (validate_twilio_request_accepts w (webhook w) req st validator Hnew Haccept)
    as [lg ->].
  destruct (sim_webhook w req req eq_refl eq_refl eq_refl eq_refl
              (State (files st) (calls st) lg) st) as [Hres [Hf Hc]].
  - split; reflexivity.
  - auto.
Qed.

(** When the validator cannot be built (the constructor raises, as it does
    without an auth token), the wrapped call raises that exception at once:
    the view does not run and the state, log included, is untouched. *)
Theorem validate_twilio_request_validator_error req st e :
  RequestValidator w (getenv w "TWILIO_AUTH_TOKEN") = Raise e ->
  forall f, validate_twilio_request w f req st = (Raise e, st).
Proof.
  intros Hnew f. unfold validate_twilio_request, bind, lift. now rewrite Hnew.
Qed.

(** *** The start-up check *)

Lemma check_vars_ok vars :
  check_vars w vars = Ok tt <-> forall var, In var vars -> not_set w var = false.
Proof.
  induction vars as [|var rest IH]; cbn [check_vars].
  - split; [intros _ var [] | reflexivity].
  - destruct (not_set w var) eqn:E.
    + split; [discriminate|]. intros H. specialize (H var (or_introl eq_refl)). congruence.
    + rewrite IH. split.
      * intros H v [<-|Hin]; auto.
      * intros H v Hin. apply H. right. exact Hin.
Qed.

Lemma not_set_false var :
  not_set w var = false <-> exists value, getenv w var = Some value /\ value <> "".
Proof.
  unfold not_set. destruct (getenv w var) as [value|].
  - rewrite String.eqb_neq. split.
    + intros H. eauto.
    + intros (v & [= <-] & H). exact H.
  - split; [discriminate | intros (v & [=] & _)].
Qed.

(** The check of the [__main__] block passes exactly when the account
    identifier, the auth token and the sender number are all set and not
    empty. *)
Theorem main_check_passes_iff :
  main_check w = Ok tt <->
  forall var, In var required_vars -> exists value, getenv w var = Some value /\ value <> "".
Proof.
  unfold main_check. rewrite check_vars_ok.
  split; intros H var Hin; apply not_set_false, H, Hin.
Qed.

(** When the check fails it raises a ValueError that names a required
    variable which is unset or empty, the first such in the order account
    identifier, auth token, sender number. *)
Theorem main_check_names_first_missing e :
  main_check w = Raise e ->
  exists before var after,
    required_vars = (before ++ var :: after)%list /\
    (forall v, In v before -> not_set w v = false) /\
    not_set w var = true /\
    e = Exn ValueError ("Missing required environment variable: " +:+ var).
Proof.
  unfold main_check.
  generalize required_vars. intros vars. induction vars as [|var rest IH]; cbn [check_vars].
  - discriminate.
  - destruct (not_set w var) eqn:E.
    + intros [= <-]. exists [], var, rest. repeat split; auto. intros v [].
    + intros H. destruct (IH H) as (before & v & after & -> & Hb & Hv & ->).
      exists (var :: before), v, after. repeat split; auto.
      intros v' [<-|Hin]; auto.
Qed.

(** Once the check has passed, [send_whatsapp_message] sends one message
    from "whatsapp:" followed by the configured number, which is not empty,
    to "whatsapp:" followed by the number it is given, with the body
    unchanged; it touches no file. *)
Theorem main_check_configures_sender :
  main_check w = Ok tt ->
  exists number,
    number <> "" /\
    getenv w "TWILIO_WHATSAPP_NUMBER" = Some number /\
    forall message to_number st,
      calls (snd (send_whatsapp_message w message to_number st)) =
        (calls st ++ [Send message ("whatsapp:" +:+ number) ("whatsapp:" +:+ to_number)])%list /\
      files (snd (send_whatsapp_message w message to_number st)) = files st.
Proof.
  intros Hcheck.
  destruct (proj1 main_check_passes_iff Hcheck "TWILIO_WHATSAPP_NUMBER")
    as (number & Henv & Hne).
  { cbn. auto. }
  exists number. repeat split; auto.
  - unfold send_whatsapp_message, twilio_messages_create, bind, record, lift, ret.
    rewrite Henv. cbn.
    destruct (messages_create w _ _ _); reflexivity.
  - unfold send_whatsapp_message, twilio_messages_create, bind, record, lift, ret.
    cbn. destruct (messages_create w _ _ _); reflexivity.
Qed.

(** Without a configured sender number [send_whatsapp_message] does not
    fail: the f-string prints [None] and the message is sent from
    "whatsapp:None". *)
Theorem send_whatsapp_message_without_number message to_number st :
  getenv w "TWILIO_WHATSAPP_NUMBER" = None ->
  calls (snd (send_whatsapp_message w message to_number st)) =
    (calls st ++ [Send message "whatsapp:None" ("whatsapp:" +:+ to_number)])%list.
Proof.
  intros Henv.
  unfold send_whatsapp_message, twilio_messages_create, bind, record, lift, ret.
  rewrite Henv. cbn.
  destruct (messages_create w _ _ _); reflexivity.
Qed.

(** *** The sender *)

Lemma split_without_sep sep s :
  Py.contains (String sep "") s = false -> Py.split sep s = [s].
Proof.
  induction s as [|c s' IH]; [reflexivity|].
  cbn [Py.split Py.contains]. rewrite prefix_char.
  destruct (Ascii.eqb c sep); [discriminate|]. cbn [orb].
  intros H. now rewrite (IH H).
Qed.

Lemma split_append sep c i :
  Py.contains (String sep "") c = false ->
  Py.split sep (c +:+ String sep i) = c :: Py.split sep i.
Proof.
  induction c as [|a c' IH].
  - intros _. change ("" +:+ String sep i) with (String sep i).
    cbn [Py.split]. now rewrite Ascii.eqb_refl.
  - change (String a c' +:+ String sep i) with (String a (c' +:+ String sep i)).
    cbn [Py.split Py.contains]. rewrite prefix_char. destruct (Ascii.eqb a sep); [discriminate|]. cbn [orb].
    intros H. now rewrite (IH H).
Qed.

(** For a From of the form channel:identifier, with no colon in either
    part, the sender is the identifier: the reply, addressed to "whatsapp:"
    followed by the sender, goes back to the From of a WhatsApp message. *)
Theorem sender_of_channel_identifier req channel ident :
  values_get req "From" = Some (channel +:+ ":" +:+ ident) ->
  Py.contains ":" channel = false ->
  Py.contains ":" ident = false ->
  sender_of req = Ok ident.
Proof.
  intros HFrom Hchannel Hident.
  unfold sender_of, values_get_str. rewrite HFrom. cbn [from_option id].
  change (":" +:+ ident) with (String ":" ident).
  rewrite (split_append ":" channel ident Hchannel).
  rewrite (split_without_sep ":" ident Hident). reflexivity.
Qed.

(** A NumMedia that is zero or negative is a message without media: 200
    "OK", no outbound call, no file touched. *)
Theorem webhook_nonpositive_media req st sender n :
  sender_of req = Ok sender ->
  num_media_of req = Ok n ->
  (n <= 0)%Z ->
  fst (webhook w req st) = Ok ("OK", 200) /\
  calls (snd (webhook w req st)) = calls st /\
  files (snd (webhook w req st)) = files st.
Proof.
  intros Hs Hn Hle.
  destruct (webhook_branches w req st
              (fun resp st' => resp = ("OK", 200) /\ calls st' = calls st /\ files st' = files st)
              (fun _ _ => False))
    as (resp & Hr & [(-> & Hc & Hf)|[]]); auto.
  - intros e lg He. congruence.
  - intros s e lg _ He. congruence.
  - intros s m lg _ Hm Hpos. rewrite Hn in Hm. injection Hm as <-.
    apply Z.ltb_lt in Hpos. lia.
Qed.

(** *** The media fetcher *)

(** When the GET answers with a status that is accepted and the bytes
    decode, [download_audio] returns the path of the normalized file; the
    encoded file holds the body of the answer and the normalized file its
    export as wav, whatever these paths held before; one GET was made, with
    the account identifier and the auth token as credentials. *)
Theorem download_audio_success url st r audio :
  requests_get w url auth = Ok r ->
  raise_for_status r = Ok tt ->
  from_ogg w (Some (content r)) = Ok audio ->
  fst (download_audio w url st) = Ok "temp_audio.wav" /\
  files (snd (download_audio w url st)) !! "temp_audio.ogg" = Some (content r) /\
  files (snd (download_audio w url st)) !! "temp_audio.wav" = Some (export w audio "wav") /\
  calls (snd (download_audio w url st)) = (calls st ++ [Fetch url auth])%list.
Proof.
  unfold auth. intros Hget Hstatus Hdecode.
  pose proof (post_outcome _ _ _ _ (download_audio_post w url st)) as H.
  destruct (fst (download_audio w url st)) as [path|e].
  - destruct H as (-> & Hc & r' & audio' & H1 & H2 & H3 & ->). same_answer.
    rewrite lookup_insert_ne by discriminate. rewrite !lookup_insert_eq. auto.
  - destruct H as (_ & [(e0 & H1 & _)|[(r' & H1 & H2 & _)|(r' & H1 & H2 & H3 & _)]]);
      same_answer.
Qed.

(** When the bytes do not decode, [download_audio] raises the error of the
    decoder; the encoded file holds the body of the answer and the
    normalized file is not written. *)
Theorem download_audio_decode_error url st r e :
  requests_get w url auth = Ok r ->
  raise_for_status r = Ok tt ->
  from_ogg w (Some (content r)) = Raise e ->
  fst (download_audio w url st) = Raise e /\
  files (snd (download_audio w url st)) !! "temp_audio.ogg" = Some (content r) /\
  files (snd (download_audio w url st)) !! "temp_audio.wav" = files st !! "temp_audio.wav".
Proof.
  unfold auth. intros Hget Hstatus Hdecode.
  pose proof (post_outcome _ _ _ _ (download_audio_post w url st)) as H.
  destruct (fst (download_audio w url st)) as [path|e'].
  - destruct H as (_ & _ & r' & audio' & H1 & H2 & H3 & _). same_answer.
  - destruct H as (_ & [(e0 & H1 & _)|[(r' & H1 & H2 & _)|(r' & H1 & H2 & H3 & ->)]]);
      same_answer.
    rewrite lookup_insert_eq. rewrite lookup_insert_ne by discriminate. auto.
Qed.

(** Fetching and then transcribing hands the speech model the normalized
    audio that was just written, with the language hint "he" and the task
    "transcribe"; the result of the two steps is the result of the model. *)
Theorem transcribe_after_download url st r audio :
  requests_get w url auth = Ok r ->
  raise_for_status r = Ok tt ->
  from_ogg w (Some (content r)) = Ok audio ->
  fst ((audio_file <- download_audio w url;; transcribe_audio w audio_file) st) =
    model_transcribe w (Some (export w audio "wav")) "he" "transcribe".
Proof.
  unfold auth. intros Hget Hstatus Hdecode.
  pose proof (download_audio_post w url st) as H. unfold post in H.
  unfold bind at 1.
  destruct (download_audio w url st) as [[path|e] st'].
  - destruct H as (-> & Hc & r' & audio' & H1 & H2 & H3 & Hf). same_answer.
    unfold transcribe_audio, bind, record, read_file, lift. cbn.
    rewrite Hf, lookup_insert_eq.
    destruct (model_transcribe w _ _ _); reflexivity.
  - destruct H as (_ & [(e0 & H1 & _)|[(r' & H1 & H2 & _)|(r' & H1 & H2 & H3 & _)]]);
      same_answer.
Qed.

(** *** Audio requests *)

Section AudioRun.

Variables (req : request) (st : state) (sender : string) (n : Z).
Hypothesis Hsender : sender_of req = Ok sender.
Hypothesis Hnum : num_media_of req = Ok n.
Hypothesis Hpos : (0 < n)%Z.
Hypothesis Haudio : Py.contains "audio" (values_get_str req "MediaContentType0") = true.

(** The cases of [pipeline_post], after the answers of the capabilities
    have been compared. *)
Ltac audio_run R :=
  unfold auth, from_number in *;
  destruct (webhook_audio w req st sender n Hsender Hnum Hpos Haudio R)
    as (resp & Hresp & HR);
  [ intros lg; eapply post_weaken; [apply pipeline_post | |]; cbn [calls files];
    [ intros resp st' (-> & r' & audio' & t' & sid' & H1 & H2 & H3 & H4 & H5 & Hc & Hf)
    | intros e' st'
        [(Hc & [(e0' & H1 & -> & Hf)|[(r' & H1 & H2 & Hf)|(r' & H1 & H2 & H3 & Hf)]])
        |(r' & audio' & H1 & H2 & H3 & Hf & [[H4 Hc]|(t' & H4 & H5 & Hc)])] lg';
      cbn [calls files] ];
    same_answer
  | ].

(** The answer 200 "OK" to an audio request is given only after the
    message was handed to the sender and accepted: the trace then ends with
    the GET, the transcription and the message that carries the
    transcript. *)
Theorem webhook_ok_only_after_send :
  fst (webhook w req st) = Ok ("OK", 200) ->
  exists transcript sid,
    messages_create w transcript from_number ("whatsapp:" +:+ sender) = Ok sid /\
    calls (snd (webhook w req st)) =
      (calls st ++ [Fetch (values_get_str req "MediaUrl0") auth;
                    Transcribe "temp_audio.wav";
                    Send transcript from_number ("whatsapp:" +:+ sender)])%list.
Proof.
  intros Hok.
  audio_run (fun (resp : response) st' =>
               snd resp = 200 ->
               exists transcript sid,
                 messages_create w transcript
                   ("whatsapp:" +:+ Py.format_opt (getenv w "TWILIO_WHATSAPP_NUMBER"))
                   ("whatsapp:" +:+ sender) = Ok sid /\
                 calls st' =
                   (calls st ++
                    [Fetch (values_get_str req "MediaUrl0")
                       (getenv w "TWILIO_ACCOUNT_SID", getenv w "TWILIO_AUTH_TOKEN");
                     Transcribe "temp_audio.wav";
                     Send transcript
                       ("whatsapp:" +:+ Py.format_opt (getenv w "TWILIO_WHATSAPP_NUMBER"))
                       ("whatsapp:" +:+ sender)])%list);
    try (cbn; discriminate).
  - intros _. eauto.
  - rewrite Hok in Hresp. injection Hresp as <-. apply HR. reflexivity.
Qed.

(** The bytes do not decode: 500 with the text of the decoder's error,
    after the GET and nothing else. *)
Theorem webhook_decode_error r e :
  requests_get w (values_get_str req "MediaUrl0") auth = Ok r ->
  raise_for_status r = Ok tt ->
  from_ogg w (Some (content r)) = Raise e ->
  fst (webhook w req st) = Ok (text e, 500) /\
  calls (snd (webhook w req st)) =
    (calls st ++ [Fetch (values_get_str req "MediaUrl0") auth])%list.
Proof.
  intros Hget Hstatus Hdecode.
  audio_run (fun (resp : response) st' =>
               resp = (text e, 500) /\
               calls st' =
                 (calls st ++
                  [Fetch (values_get_str req "MediaUrl0")
                     (getenv w "TWILIO_ACCOUNT_SID", getenv w "TWILIO_AUTH_TOKEN")])%list);
    auto.
  destruct HR as [-> Hc]. auto.
Qed.

(** The speech model fails: 500 with the text of its error, after the GET
    and the transcription; nothing is sent. *)
Theorem webhook_transcription_error r audio e :
  requests_get w (values_get_str req "MediaUrl0") auth = Ok r ->
  raise_for_status r = Ok tt ->
  from_ogg w (Some (content r)) = Ok audio ->
  model_transcribe w (Some (export w audio "wav")) "he" "transcribe" = Raise e ->
  fst (webhook w req st) = Ok (text e, 500) /\
  calls (snd (webhook w req st)) =
    (calls st ++ [Fetch (values_get_str req "MediaUrl0") auth;
                  Transcribe "temp_audio.wav"])%list.
Proof.
  intros Hget Hstatus Hdecode Htr.
  audio_run (fun (resp : response) st' =>
               resp = (text e, 500) /\
               calls st' =
                 (calls st ++
                  [Fetch (values_get_str req "MediaUrl0")
                     (getenv w "TWILIO_ACCOUNT_SID", getenv w "TWILIO_AUTH_TOKEN");
                   Transcribe "temp_audio.wav"])%list);
    auto.
  destruct HR as [-> Hc]. auto.
Qed.

(** The message is refused by the sender: 500 with the text of its error;
    the one message that was tried carries the transcript. *)
Theorem webhook_send_error r audio transcript e :
  requests_get w (values_get_str req "MediaUrl0") auth = Ok r ->
  raise_for_status r = Ok tt ->
  from_ogg w (Some (content r)) = Ok audio ->
  model_transcribe w (Some (export w audio "wav")) "he" "transcribe" = Ok transcript ->
  messages_create w transcript from_number ("whatsapp:" +:+ sender) = Raise e ->
  fst (webhook w req st) = Ok (text e, 500) /\
  calls (snd (webhook w req st)) =
    (calls st ++ [Fetch (values_get_str req "MediaUrl0") auth;
                  Transcribe "temp_audio.wav";
                  Send transcript from_number ("whatsapp:" +:+ sender)])%list.
Proof.
  intros Hget Hstatus Hdecode Htr Hsend.
  audio_run (fun (resp : response) st' =>
               resp = (text e, 500) /\
               calls st' =
                 (calls st ++
                  [Fetch (values_get_str req "MediaUrl0")
                     (getenv w "TWILIO_ACCOUNT_SID", getenv w "TWILIO_AUTH_TOKEN");
                   Transcribe "temp_audio.wav";
                   Send transcript
                     ("whatsapp:" +:+ Py.format_opt (getenv w "TWILIO_WHATSAPP_NUMBER"))
                     ("whatsapp:" +:+ sender)])%list);
    auto.
  destruct HR as [-> Hc]. auto.
Qed.

End AudioRun.

End FurtherProperties.

(** ** Runs on the example worlds *)

Import Examples.

(** Scenario A: a text message is acknowledged and nothing is called. *)
Example run_text_message :
  fst (webhook working text_message empty_state) = Ok ("OK", 200) /\
  calls (snd (webhook working text_message empty_state)) = [].
Proof. vm_compute. split; reflexivity. Qed.

(** Scenario B: a voice note is fetched, transcribed and answered, and the
    temporary files are removed. *)
Example run_voice_message :
  fst (webhook working voice_message empty_state) = Ok ("OK", 200) /\
  calls (snd (webhook working voice_message empty_state)) =
    [Fetch "https://api.twilio.com/media/ME1" (Some "AC0123", Some "token");
     Transcribe "temp_audio.wav";
     Send "shalom" "whatsapp:+14155238886" "whatsapp:+972501234567"] /\
  files (snd (webhook working voice_message empty_state)) = ∅.
Proof. vm_compute. repeat split; reflexivity. Qed.

(** Scenario C with a 404 from the media server. *)
Example run_media_not_found :
  fst (webhook media_not_found voice_message empty_state) =
    Ok ("404 Client Error: Not Found for url: https://api.twilio.com/media/ME1", 500) /\
  calls (snd (webhook media_not_found voice_message empty_state)) =
    [Fetch "https://api.twilio.com/media/ME1" (Some "AC0123", Some "token")].
Proof. vm_compute. split; reflexivity. Qed.

(** C1.  The speech model fails on a voice note: the handler answers 500
    with the text of the error, and both temporary files of the run are
    still in the working directory. *)
Theorem webhook_leaves_temp_files_when_model_fails :
  fst (webhook model_fails voice_message empty_state) = Ok ("CUDA out of memory", 500) /\
  files (snd (webhook model_fails voice_message empty_state)) !! "temp_audio.ogg"
    = Some voice_note /\
  files (snd (webhook model_fails voice_message empty_state)) !! "temp_audio.wav"
    = Some voice_note.
Proof. vm_compute. repeat split; reflexivity. Qed.

(** C3.  The media server cannot be reached, [requests.get] raises
    "Connection refused": the handler answers 500 and sends nothing, but the
    body is the text of the UnboundLocalError raised by the except clause of
    [download_audio], not the text of the download error. *)
Theorem webhook_unreachable_media_loses_error_text :
  requests_get unreachable "https://api.twilio.com/media/ME1" (Some "AC0123", Some "token")
    = Raise (Exn (LibraryError "ConnectionError") "Connection refused") /\
  fst (webhook unreachable voice_message empty_state) =
    Ok ("cannot access local variable 'response' where it is not associated with a value",
        500) /\
  fst (webhook unreachable voice_message empty_state) <> Ok ("Connection refused", 500) /\
  calls (snd (webhook unreachable voice_message empty_state)) =
    [Fetch "https://api.twilio.com/media/ME1" (Some "AC0123", Some "token")].
Proof. vm_compute. repeat split; try reflexivity. discriminate. Qed.



(** C7, as stated, fails: a request without the NumMedia field, and a
    request whose From has a channel and no identifier, are both answered
    200 "OK". *)
Lemma webhook_accepts_missing_NumMedia :
  values_get no_NumMedia "NumMedia" = None /\
  fst (webhook working no_NumMedia empty_state) = Ok ("OK", 200) /\
  values_get empty_identifier "From" = Some "whatsapp:" /\
  fst (webhook working empty_identifier empty_state) = Ok ("OK", 200) /\
  flask_status (fst (webhook working no_NumMedia empty_state)) <> 500.
Proof. vm_compute. repeat split; try reflexivity. discriminate. Qed.

(** ** The theorems at concrete inputs *)



Lemma webhook_unparseable_fields_witness :
  (Py.contains ":" (values_get_str picture_bad_NumMedia "From") = false \/
   (exists s, values_get picture_bad_NumMedia "NumMedia" = Some s /\ ~ int_literal s)) /\
  exists msg,
    fst (webhook working picture_bad_NumMedia empty_state) = Ok (msg, 500) /\
    flask_status (fst (webhook working picture_bad_NumMedia empty_state)) = 500 /\
    calls (snd (webhook working picture_bad_NumMedia empty_state)) = calls empty_state /\
    files (snd (webhook working picture_bad_NumMedia empty_state)) = files empty_state /\
    (Py.contains ":" (values_get_str picture_bad_NumMedia "From") = false ->
     msg = "list index out of range") /\
    (Py.contains ":" (values_get_str picture_bad_NumMedia "From") = true ->
     forall s, values_get picture_bad_NumMedia "NumMedia" = Some s ->
       msg = "invalid literal for int() with base 10: "
             +:+ String.substring 0 200 (Py.repr s) \/
       exists digits,
         (4300 < digits <= String.length s)%nat /\
         msg = "Exceeds the limit (4300 digits) for integer string conversion: value has "
               +:+ Py.str_of_Z (Z.of_nat digits)
               +:+ " digits; use sys.set_int_max_str_digits() to increase the limit").
Proof.
  assert (Hbad : Py.contains ":" (values_get_str picture_bad_NumMedia "From") = false \/
                 (exists s, values_get picture_bad_NumMedia "NumMedia" = Some s /\
                            ~ int_literal s)).
  { right. exists "one". split; [reflexivity|].
    intros Hlit. apply int_literal_first in Hlit as [H|[H|[H|H]]]; discriminate H. }
  split; [exact Hbad|].
  apply (webhook_unparseable_fields working picture_bad_NumMedia empty_state Hbad).
Defined.


Lemma validate_twilio_request_rejects_witness :
  let validator := fun (_ : string) (_ : gmap string string) s => String.eqb s "sig" in
  RequestValidator working (getenv working "TWILIO_AUTH_TOKEN") = Ok validator /\
  validator (url voice_message) (to_dict (form voice_message))
    (twilio_signature_of voice_message) = false /\
  exists e st',
    (forall f, validate_twilio_request working f voice_message empty_state = (Raise e, st')) /\
    cls e = HTTPException 403 /\
    flask_status (Raise e) = 403 /\
    files st' = files empty_state /\
    calls st' = calls empty_state /\
    (headers_lookup "X-Twilio-Signature" (headers voice_message) = None ->
     twilio_signature_of voice_message = "").
Proof.
  cbv zeta. split; [reflexivity|]. split; [reflexivity|].
  apply (validate_twilio_request_rejects working voice_message empty_state
           (fun _ _ s => String.eqb s "sig"));
    reflexivity.
Defined.

Lemma webhook_ignores_Body_witness :
  without_field "Body" text_message = without_field "Body" text_message_bye /\
  (fst (webhook working text_message empty_state)
     = fst (webhook working text_message_bye empty_state) /\
   calls (snd (webhook working text_message empty_state))
     = calls (snd (webhook working text_message_bye empty_state)) /\
   files (snd (webhook working text_message empty_state))
     = files (snd (webhook working text_message_bye empty_state))).
Proof.
  split; [reflexivity|].
  apply (webhook_ignores_Body working text_message text_message_bye empty_state).
  reflexivity.
Defined.

(** ** The further properties at concrete inputs *)

Lemma webhook_touches_only_temp_files_witness :
  "notes.txt" <> "temp_audio.ogg" /\
  "notes.txt" <> "temp_audio.wav" /\
  files (snd (webhook working voice_message stale_state)) !! "notes.txt"
    = files stale_state !! "notes.txt".
Proof.
  split; [discriminate|]. split; [discriminate|].
  apply (webhook_touches_only_temp_files working voice_message stale_state "notes.txt");
    discriminate.
Defined.

Lemma webhook_reads_four_fields_witness :
  values_get voice_message "From" = values_get voice_message_reordered "From" /\
  values_get voice_message "NumMedia" = values_get voice_message_reordered "NumMedia" /\
  values_get voice_message "MediaContentType0"
    = values_get voice_message_reordered "MediaContentType0" /\
  values_get voice_message "MediaUrl0" = values_get voice_message_reordered "MediaUrl0" /\
  (fst (webhook working voice_message stale_state)
     = fst (webhook working voice_message_reordered stale_state) /\
   calls (snd (webhook working voice_message stale_state))
     = calls (snd (webhook working voice_message_reordered stale_state)) /\
   files (snd (webhook working voice_message stale_state))
     = files (snd (webhook working voice_message_reordered stale_state))).
Proof.
  do 4 (split; [reflexivity|]).
  apply (webhook_reads_four_fields working voice_message voice_message_reordered stale_state);
    reflexivity.
Defined.

Lemma guarded_webhook_transparent_witness :
  let validator := fun (_ : string) (_ : gmap string string) s => String.eqb s "sig" in
  RequestValidator working (getenv working "TWILIO_AUTH_TOKEN") = Ok validator /\
  validator (url signed_voice_message) (to_dict (form signed_voice_message))
    (twilio_signature_of signed_voice_message) = true /\
  (fst (validate_twilio_request working (webhook working) signed_voice_message empty_state)
     = fst (webhook working signed_voice_message empty_state) /\
   calls (snd (validate_twilio_request working (webhook working) signed_voice_message
                 empty_state))
     = calls (snd (webhook working signed_voice_message empty_state)) /\
   files (snd (validate_twilio_request working (webhook working) signed_voice_message
                 empty_state))
     = files (snd (webhook working signed_voice_message empty_state))).
Proof.
  cbv zeta. split; [reflexivity|]. split; [reflexivity|].
  apply (guarded_webhook_transparent working signed_voice_message empty_state
           (fun _ _ s => String.eqb s "sig"));
    reflexivity.
Defined.

Lemma validate_twilio_request_validator_error_witness :
  let e := Exn (LibraryError "AttributeError") "'NoneType' object has no attribute 'encode'" in
  RequestValidator no_validator (getenv no_validator "TWILIO_AUTH_TOKEN") = Raise e /\
  forall f, validate_twilio_request no_validator f voice_message empty_state
            = (Raise e, empty_state).
Proof.
  cbv zeta. split; [reflexivity|].
  apply (validate_twilio_request_validator_error no_validator voice_message empty_state).
  reflexivity.
Defined.

Lemma main_check_names_first_missing_witness :
  let e := Exn ValueError "Missing required environment variable: TWILIO_WHATSAPP_NUMBER" in
  main_check no_number = Raise e /\
  exists before var after,
    required_vars = (before ++ var :: after)%list /\
    (forall v, In v before -> not_set no_number v = false) /\
    not_set no_number var = true /\
    e = Exn ValueError ("Missing required environment variable: " +:+ var).
Proof.
  cbv zeta. split; [reflexivity|].
  apply (main_check_names_first_missing no_number). reflexivity.
Defined.

Lemma main_check_configures_sender_witness :
  main_check working = Ok tt /\
  exists number,
    number <> "" /\
    getenv working "TWILIO_WHATSAPP_NUMBER" = Some number /\
    forall message to_number st,
      calls (snd (send_whatsapp_message working message to_number st)) =
        (calls st ++ [Send message ("whatsapp:" +:+ number) ("whatsapp:" +:+ to_number)])%list /\
      files (snd (send_whatsapp_message working message to_number st)) = files st.
Proof.
  split; [reflexivity|].
  apply (main_check_configures_sender working). reflexivity.
Defined.

Lemma send_whatsapp_message_without_number_witness :
  getenv no_number "TWILIO_WHATSAPP_NUMBER" = None /\
  calls (snd (send_whatsapp_message no_number "shalom" "+972501234567" empty_state)) =
    (calls empty_state ++ [Send "shalom" "whatsapp:None" ("whatsapp:" +:+ "+972501234567")])%list.
Proof.
  split; [reflexivity|].
  apply (send_whatsapp_message_without_number no_number "shalom" "+972501234567" empty_state).
  reflexivity.
Defined.

Lemma sender_of_channel_identifier_witness :
  values_get voice_message "From" = Some ("whatsapp" +:+ ":" +:+ "+972501234567") /\
  Py.contains ":" "whatsapp" = false /\
  Py.contains ":" "+972501234567" = false /\
  sender_of voice_message = Ok "+972501234567".
Proof.
  do 3 (split; [reflexivity|]).
  apply (sender_of_channel_identifier voice_message "whatsapp" "+972501234567");
    reflexivity.
Defined.

Lemma webhook_nonpositive_media_witness :
  sender_of negative_media = Ok "+972501234567" /\
  num_media_of negative_media = Ok (-1) /\
  (-1 <= 0)%Z /\
  (fst (webhook working negative_media stale_state) = Ok ("OK", 200) /\
   calls (snd (webhook working negative_media stale_state)) = calls stale_state /\
   files (snd (webhook working negative_media stale_state)) = files stale_state).
Proof.
  split; [reflexivity|]. split; [reflexivity|]. split; [lia|].
  apply (webhook_nonpositive_media working negative_media stale_state "+972501234567" (-1));
    first [reflexivity | lia].
Defined.

Lemma download_audio_success_witness :
  let url := "https://api.twilio.com/media/ME1" in
  let auth := (getenv working "TWILIO_ACCOUNT_SID", getenv working "TWILIO_AUTH_TOKEN") in
  let r := HttpResponse 200 "OK" url voice_note in
  requests_get working url auth = Ok r /\
  raise_for_status r = Ok tt /\
  from_ogg working (Some (content r)) = Ok voice_note /\
  (fst (download_audio working url stale_state) = Ok "temp_audio.wav" /\
   files (snd (download_audio working url stale_state)) !! "temp_audio.ogg"
     = Some (content r) /\
   files (snd (download_audio working url stale_state)) !! "temp_audio.wav"
     = Some (export working voice_note "wav") /\
   calls (snd (download_audio working url stale_state))
     = (calls stale_state ++ [Fetch url auth])%list).
Proof.
  cbv zeta. do 3 (split; [reflexivity|]).
  apply (download_audio_success working "https://api.twilio.com/media/ME1" stale_state
           (HttpResponse 200 "OK" "https://api.twilio.com/media/ME1" voice_note) voice_note);
    reflexivity.
Defined.

Lemma download_audio_http_error_witness :
  let url := "https://api.twilio.com/media/ME1" in
  let auth := (getenv media_not_found "TWILIO_ACCOUNT_SID",
               getenv media_not_found "TWILIO_AUTH_TOKEN") in
  let r := HttpResponse 404 "Not Found" url [] in
  let e := Exn HTTPError
             "404 Client Error: Not Found for url: https://api.twilio.com/media/ME1" in
  requests_get media_not_found url auth = Ok r /\
  raise_for_status r = Raise e /\
  (fst (download_audio media_not_found url stale_state) = Raise e /\
   files (snd (download_audio media_not_found url stale_state)) = files stale_state).
Proof.
  cbv zeta. do 2 (split; [reflexivity|]).
  apply (download_audio_http_error media_not_found "https://api.twilio.com/media/ME1"
           stale_state (HttpResponse 404 "Not Found" "https://api.twilio.com/media/ME1" []));
    reflexivity.
Defined.

Lemma download_audio_decode_error_witness :
  let url := "https://api.twilio.com/media/ME1" in
  let auth := (getenv not_ogg "TWILIO_ACCOUNT_SID", getenv not_ogg "TWILIO_AUTH_TOKEN") in
  let r := HttpResponse 200 "OK" url voice_note in
  let e := Exn (LibraryError "CouldntDecodeError") "Decoding failed" in
  requests_get not_ogg url auth = Ok r /\
  raise_for_status r = Ok tt /\
  from_ogg not_ogg (Some (content r)) = Raise e /\
  (fst (download_audio not_ogg url empty_state) = Raise e /\
   files (snd (download_audio not_ogg url empty_state)) !! "temp_audio.ogg"
     = Some (content r) /\
   files (snd (download_audio not_ogg url empty_state)) !! "temp_audio.wav"
     = files empty_state !! "temp_audio.wav").
Proof.
  cbv zeta. do 3 (split; [reflexivity|]).
  apply (download_audio_decode_error not_ogg "https://api.twilio.com/media/ME1" empty_state
           (HttpResponse 200 "OK" "https://api.twilio.com/media/ME1" voice_note));
    reflexivity.
Defined.

Lemma transcribe_after_download_witness :
  let url := "https://api.twilio.com/media/ME1" in
  let auth := (getenv working "TWILIO_ACCOUNT_SID", getenv working "TWILIO_AUTH_TOKEN") in
  let r := HttpResponse 200 "OK" url voice_note in
  requests_get working url auth = Ok r /\
  raise_for_status r = Ok tt /\
  from_ogg working (Some (content r)) = Ok voice_note /\
  fst (bind (download_audio working url) (fun audio_file => transcribe_audio working audio_file)
         stale_state)
    = model_transcribe working (Some (export working voice_note "wav")) "he" "transcribe".
Proof.
  cbv zeta. do 3 (split; [reflexivity|]).
  apply (transcribe_after_download working "https://api.twilio.com/media/ME1" stale_state
           (HttpResponse 200 "OK" "https://api.twilio.com/media/ME1" voice_note) voice_note);
    reflexivity.
Defined.

Lemma webhook_ok_only_after_send_witness :
  sender_of voice_message = Ok "+972501234567" /\
  num_media_of voice_message = Ok 1 /\
  (0 < 1)%Z /\
  Py.contains "audio" (values_get_str voice_message "MediaContentType0") = true /\
  fst (webhook working voice_message stale_state) = Ok ("OK", 200) /\
  exists transcript sid,
    messages_create working transcript
      ("whatsapp:" +:+ Py.format_opt (getenv working "TWILIO_WHATSAPP_NUMBER"))
      ("whatsapp:" +:+ "+972501234567") = Ok sid /\
    calls (snd (webhook working voice_message stale_state)) =
      (calls stale_state ++
       [Fetch (values_get_str voice_message "MediaUrl0")
          (getenv working "TWILIO_ACCOUNT_SID", getenv working "TWILIO_AUTH_TOKEN");
        Transcribe "temp_audio.wav";
        Send transcript
          ("whatsapp:" +:+ Py.format_opt (getenv working "TWILIO_WHATSAPP_NUMBER"))
          ("whatsapp:" +:+ "+972501234567")])%list.
Proof.
  split; [reflexivity|]. split; [reflexivity|]. split; [lia|].
  split; [reflexivity|]. split; [reflexivity|].
  apply (webhook_ok_only_after_send working voice_message stale_state "+972501234567" 1);
    first [reflexivity | lia].
Defined.

Lemma webhook_cleanup_on_success_witness :
  sender_of voice_message = Ok "+972501234567" /\
  num_media_of voice_message = Ok 1 /\
  (0 < 1)%Z /\
  Py.contains "audio" (values_get_str voice_message "MediaContentType0") = true /\
  fst (webhook working voice_message stale_state) = Ok ("OK", 200) /\
  (files (snd (webhook working voice_message stale_state)) !! "temp_audio.ogg" = None /\
   files (snd (webhook working voice_message stale_state)) !! "temp_audio.wav" = None).
Proof.
  split; [reflexivity|]. split; [reflexivity|]. split; [lia|].
  split; [reflexivity|]. split; [reflexivity|].
  apply (webhook_cleanup_on_success working voice_message stale_state "+972501234567" 1);
    first [reflexivity | lia].
Defined.

Lemma webhook_http_error_witness :
  let r := HttpResponse 404 "Not Found" "https://api.twilio.com/media/ME1" [] in
  let e := Exn HTTPError
             "404 Client Error: Not Found for url: https://api.twilio.com/media/ME1" in
  let auth := (getenv media_not_found "TWILIO_ACCOUNT_SID",
               getenv media_not_found "TWILIO_AUTH_TOKEN") in
  sender_of voice_message = Ok "+972501234567" /\
  num_media_of voice_message = Ok 1 /\
  (0 < 1)%Z /\
  Py.contains "audio" (values_get_str voice_message "MediaContentType0") = true /\
  requests_get media_not_found (values_get_str voice_message "MediaUrl0") auth = Ok r /\
  raise_for_status r = Raise e /\
  (fst (webhook media_not_found voice_message empty_state) = Ok (text e, 500) /\
   calls (snd (webhook media_not_found voice_message empty_state)) =
     (calls empty_state ++ [Fetch (values_get_str voice_message "MediaUrl0") auth])%list /\
   files (snd (webhook media_not_found voice_message empty_state)) = files empty_state).
Proof.
  cbv zeta. split; [reflexivity|]. split; [reflexivity|]. split; [lia|].
  split; [reflexivity|]. split; [reflexivity|]. split; [reflexivity|].
  apply (webhook_http_error media_not_found voice_message empty_state "+972501234567" 1
           eq_refl eq_refl ltac:(lia) eq_refl
           (HttpResponse 404 "Not Found" "https://api.twilio.com/media/ME1" []));
    reflexivity.
Defined.

Lemma webhook_download_failure_witness :
  let auth := (getenv media_not_found "TWILIO_ACCOUNT_SID",
               getenv media_not_found "TWILIO_AUTH_TOKEN") in
  sender_of voice_message = Ok "+972501234567" /\
  num_media_of voice_message = Ok 1 /\
  (0 < 1)%Z /\
  Py.contains "audio" (values_get_str voice_message "MediaContentType0") = true /\
  (forall r audio,
     requests_get media_not_found (values_get_str voice_message "MediaUrl0") auth = Ok r ->
     raise_for_status r = Ok tt ->
     from_ogg media_not_found (Some (content r)) <> Ok audio) /\
  exists msg,
    fst (webhook media_not_found voice_message empty_state) = Ok (msg, 500) /\
    calls (snd (webhook media_not_found voice_message empty_state)) =
      (calls empty_state ++ [Fetch (values_get_str voice_message "MediaUrl0") auth])%list.
Proof.
  cbv zeta.
  assert (Hfail : forall r audio,
            requests_get media_not_found (values_get_str voice_message "MediaUrl0")
              (getenv media_not_found "TWILIO_ACCOUNT_SID",
               getenv media_not_found "TWILIO_AUTH_TOKEN") = Ok r ->
            raise_for_status r = Ok tt ->
            from_ogg media_not_found (Some (content r)) <> Ok audio).
  { intros r audio [= <-]. discriminate. }
  split; [reflexivity|]. split; [reflexivity|]. split; [lia|].
  split; [reflexivity|]. split; [exact Hfail|].
  apply (webhook_download_failure media_not_found voice_message empty_state
           "+972501234567" 1);
    first [reflexivity | lia | exact Hfail].
Defined.

Lemma webhook_decode_error_witness :
  let r := HttpResponse 200 "OK" "https://api.twilio.com/media/ME1" voice_note in
  let e := Exn (LibraryError "CouldntDecodeError") "Decoding failed" in
  let auth := (getenv not_ogg "TWILIO_ACCOUNT_SID", getenv not_ogg "TWILIO_AUTH_TOKEN") in
  sender_of voice_message = Ok "+972501234567" /\
  num_media_of voice_message = Ok 1 /\
  (0 < 1)%Z /\
  Py.contains "audio" (values_get_str voice_message "MediaContentType0") = true /\
  requests_get not_ogg (values_get_str voice_message "MediaUrl0") auth = Ok r /\
  raise_for_status r = Ok tt /\
  from_ogg not_ogg (Some (content r)) = Raise e /\
  (fst (webhook not_ogg voice_message empty_state) = Ok (text e, 500) /\
   calls (snd (webhook not_ogg voice_message empty_state)) =
     (calls empty_state ++ [Fetch (values_get_str voice_message "MediaUrl0") auth])%list).
Proof.
  cbv zeta. split; [reflexivity|]. split; [reflexivity|]. split; [lia|].
  do 4 (split; [reflexivity|]).
  apply (webhook_decode_error not_ogg voice_message empty_state "+972501234567" 1
           eq_refl eq_refl ltac:(lia) eq_refl
           (HttpResponse 200 "OK" "https://api.twilio.com/media/ME1" voice_note));
    reflexivity.
Defined.

Lemma webhook_transcription_error_witness :
  let r := HttpResponse 200 "OK" "https://api.twilio.com/media/ME1" voice_note in
  let e := Exn (LibraryError "RuntimeError") "CUDA out of memory" in
  let auth := (getenv model_fails "TWILIO_ACCOUNT_SID",
               getenv model_fails "TWILIO_AUTH_TOKEN") in
  sender_of voice_message = Ok "+972501234567" /\
  num_media_of voice_message = Ok 1 /\
  (0 < 1)%Z /\
  Py.contains "audio" (values_get_str voice_message "MediaContentType0") = true /\
  requests_get model_fails (values_get_str voice_message "MediaUrl0") auth = Ok r /\
  raise_for_status r = Ok tt /\
  from_ogg model_fails (Some (content r)) = Ok voice_note /\
  model_transcribe model_fails (Some (export model_fails voice_note "wav")) "he" "transcribe"
    = Raise e /\
  (fst (webhook model_fails voice_message empty_state) = Ok (text e, 500) /\
   calls (snd (webhook model_fails voice_message empty_state)) =
     (calls empty_state ++ [Fetch (values_get_str voice_message "MediaUrl0") auth;
                            Transcribe "temp_audio.wav"])%list).
Proof.
  cbv zeta. split; [reflexivity|]. split; [reflexivity|]. split; [lia|].
  do 5 (split; [reflexivity|]).
  apply (webhook_transcription_error model_fails voice_message empty_state "+972501234567" 1
           eq_refl eq_refl ltac:(lia) eq_refl
           (HttpResponse 200 "OK" "https://api.twilio.com/media/ME1" voice_note) voice_note);
    reflexivity.
Defined.

Lemma webhook_send_error_witness :
  let r := HttpResponse 200 "OK" "https://api.twilio.com/media/ME1" voice_note in
  let e := Exn (LibraryError "TwilioRestException")
             "HTTP 400 error: Unable to create record" in
  let auth := (getenv send_fails "TWILIO_ACCOUNT_SID", getenv send_fails "TWILIO_AUTH_TOKEN") in
  let from_number :=
    "whatsapp:" +:+ Py.format_opt (getenv send_fails "TWILIO_WHATSAPP_NUMBER") in
  sender_of voice_message = Ok "+972501234567" /\
  num_media_of voice_message = Ok 1 /\
  (0 < 1)%Z /\
  Py.contains "audio" (values_get_str voice_message "MediaContentType0") = true /\
  requests_get send_fails (values_get_str voice_message "MediaUrl0") auth = Ok r /\
  raise_for_status r = Ok tt /\
  from_ogg send_fails (Some (content r)) = Ok voice_note /\
  model_transcribe send_fails (Some (export send_fails voice_note "wav")) "he" "transcribe"
    = Ok "shalom" /\
  messages_create send_fails "shalom" from_number ("whatsapp:" +:+ "+972501234567")
    = Raise e /\
  (fst (webhook send_fails voice_message empty_state) = Ok (text e, 500) /\
   calls (snd (webhook send_fails voice_message empty_state)) =
     (calls empty_state ++ [Fetch (values_get_str voice_message "MediaUrl0") auth;
                            Transcribe "temp_audio.wav";
                            Send "shalom" from_number
                              ("whatsapp:" +:+ "+972501234567")])%list).
Proof.
  cbv zeta. split; [reflexivity|]. split; [reflexivity|]. split; [lia|].
  do 6 (split; [reflexivity|]).
  apply (webhook_send_error send_fails voice_message empty_state "+972501234567" 1
           eq_refl eq_refl ltac:(lia) eq_refl
           (HttpResponse 200 "OK" "https://api.twilio.com/media/ME1" voice_note)
           voice_note "shalom");
    reflexivity.
Defined.
